(** * Captain Gang: a shallow embedding of [captain_gang.py]

    The analyzer of [captain_gang.py] fetches a player's page, collects the
    teams the player captains, fetches every team page, extracts the players
    and counts how often each name occurs.

    Modelling choices, all taken from the source:
    - a Python [str] is a [string]; the text primitives ([lower], [isupper],
      [isspace], [strip], [split], the regular expressions) are those of
      Python on ASCII text, bytes above 127 have no case and are neither
      digits, letters nor white space;
    - a parsed page is a tree of tags and strings, the part of a
      BeautifulSoup object the analyzer reads ([find_all], [get_text],
      [get]);
    - [requests], the parser and [urljoin] are collaborators outside the
      file: they are parameters of the analyzer;
    - printing, fetching and sleeping are recorded in a trace, the network
      is threaded through as a state. *)

From Stdlib Require Import Ascii NArith Decimal DecimalString.
From stdpp Require Import base list strings gmap sorting.

Local Open Scope N_scope.

(** ** Python text primitives on ASCII *)

Module Py.

Definition code (c : ascii) : N := N_of_ascii c.

(** [c.isspace()], which is also [\s] of [re] and what [strip] and [split]
    remove: tab, line feed, vertical tab, form feed, carriage return, the
    four separators 28..31 and the space. *)
Definition isspace (c : ascii) : bool :=
  ((9 <=? code c) && (code c <=? 13)) || ((28 <=? code c) && (code c <=? 32)).

(** [\d] *)
Definition isdigit (c : ascii) : bool := (48 <=? code c) && (code c <=? 57).

Definition isupper_char (c : ascii) : bool := (65 <=? code c) && (code c <=? 90).
Definition islower_char (c : ascii) : bool := (97 <=? code c) && (code c <=? 122).

(** [[A-Za-z]] *)
Definition isalpha (c : ascii) : bool := isupper_char c || islower_char c.

Definition lower_char (c : ascii) : ascii :=
  if isupper_char c then ascii_of_N (code c + 32) else c.

(** [s.lower()] *)
Fixpoint lower (s : string) : string :=
  match s with
  | "" => ""
  | String c r => String (lower_char c) (lower r)
  end.

Fixpoint forallb (p : ascii → bool) (s : string) : bool :=
  match s with
  | "" => true
  | String c r => p c && forallb p r
  end.

Fixpoint existsb (p : ascii → bool) (s : string) : bool :=
  match s with
  | "" => false
  | String c r => p c || existsb p r
  end.

(** [s.isupper()]: at least one cased character and no lower-case one. *)
Definition isupper (s : string) : bool :=
  existsb isupper_char s && negb (existsb islower_char s).

(** [len(s)] *)
Definition len (s : string) : nat := String.length s.

(** [s.startswith(p)] *)
Fixpoint startswith (p s : string) : bool :=
  match p, s with
  | "", _ => true
  | String a p', String b s' => bool_decide (a = b) && startswith p' s'
  | String _ _, "" => false
  end.

(** [p in s] on strings: [p] occurs as a contiguous substring of [s]. *)
Fixpoint contains (p s : string) : bool :=
  startswith p s ||
  match s with
  | "" => false
  | String _ r => contains p r
  end.

(** [s.lstrip()], [s.rstrip()], [s.strip()] *)
Fixpoint lstrip (s : string) : string :=
  match s with
  | "" => ""
  | String c r => if isspace c then lstrip r else s
  end.

Fixpoint rstrip (s : string) : string :=
  match s with
  | "" => ""
  | String c r =>
      match rstrip r with
      | "" => if isspace c then "" else String c ""
      | r' => String c r'
      end
  end.

Definition strip (s : string) : string := lstrip (rstrip s).

(** [s.split()]: the maximal runs of characters that are not white space.
    [cur] is the run being read, in reverse. *)
Fixpoint split_go (cur : option string) (s : string) : list string :=
  match s with
  | "" => option_list (String.rev <$> cur)
  | String c r =>
      if isspace c
      then option_list (String.rev <$> cur) ++ split_go None r
      else split_go (Some (String c (default "" cur))) r
  end.
Definition split : string → list string := split_go None.

(** [sep.join(l)] *)
Fixpoint join (sep : string) (l : list string) : string :=
  match l with
  | [] => ""
  | [x] => x
  | x :: r => x +:+ sep +:+ join sep r
  end.

(** [c * n] for a one-character string [c] *)
Fixpoint repeat_char (c : ascii) (n : nat) : string :=
  match n with
  | O => ""
  | S k => String c (repeat_char c k)
  end.

(** [str(n)] for a natural number *)
Definition str (n : nat) : string := NilZero.string_of_uint (Nat.to_uint n).

(** [format(s, "<w")] and [format(s, ">w")]: pad with spaces to width [w]. *)
Definition ljust (w : nat) (s : string) : string :=
  s +:+ repeat_char " " (w - len s)%nat.
Definition rjust (w : nat) (s : string) : string :=
  repeat_char " " (w - len s)%nat +:+ s.

(** [any(k in text for k in keywords)] *)
Definition any_in (keywords : list string) (text : string) : bool :=
  List.existsb (λ k, contains k text) keywords.

(** *** The regular expressions of the source *)

(** [re.match(r'^[A-Za-z\s,\.]+$', text)]: a non-empty text of letters,
    white space, commas and periods.  ([$] also matches before a final
    line feed, which the class contains anyway.) *)
Definition name_char (c : ascii) : bool :=
  isalpha c || isspace c || bool_decide (c = ","%char) || bool_decide (c = "."%char).
Definition match_name_shape (text : string) : bool :=
  negb (bool_decide (text = "")) && forallb name_char text.

(** [re.match(r'^[\d\s\-_]+$', text)] *)
Definition number_char (c : ascii) : bool :=
  isdigit c || isspace c || bool_decide (c = "-"%char) || bool_decide (c = "_"%char).
Definition match_numbers_only (text : string) : bool :=
  negb (bool_decide (text = "")) && forallb number_char text.

(** The longest prefix of digits: what a greedy [\d*] consumes. *)
Fixpoint take_digits (s : string) : string :=
  match s with
  | "" => ""
  | String c r => if isdigit c then String c (take_digits r) else ""
  end.

Fixpoint drop (n : nat) (s : string) : string :=
  match n, s with
  | O, _ => s
  | S _, "" => ""
  | S k, String _ r => drop k r
  end.

(** [re.search(lit + r'(\d+)', s)] for a literal [lit]: the leftmost
    position at which [lit] is followed by a digit; the result is the group,
    the whole run of digits there. *)
Fixpoint search_digits_after (lit s : string) : option string :=
  let here :=
    if startswith lit s then
      match take_digits (drop (len lit) s) with
      | "" => None
      | ds => Some ds
      end
    else None in
  match here with
  | Some ds => Some ds
  | None =>
      match s with
      | "" => None
      | String _ r => search_digits_after lit r
      end
  end.

End Py.

(** ** The name heuristic *)

Definition skip_keywords : list string :=
  [ "Captain"; "Co-Captain"; "Team"; "League"; "Division"; "Win"; "Loss"; "Rating";
    "City"; "Gender"; "Matches"; "Player"; "Status"; "Outcome"; "Round"; "Home";
    "Away"; "Confirmed"; "Scheduled"; "Defaults"; "Singles"; "Doubles"; "Eligibility";
    "Expiration"; "Local"; "Sectional"; "National"; "PlayOff"; "Registration";
    "Closed"; "Currently"; "playing"; "If"; "a"; "problem"; "exists"; "Red";
    "Rostered"; "Individual"; "Won"; "Scheduled"; "Day"; "Match"; "date"; "time";
    "Standings"; "Rules"; "Newsletters"; "Availability"; "Coordinator"; "Print";
    "Blank"; "Score"; "Card"; "Mountain"; "View"; "San"; "Jose"; "Santa"; "Clara";
    "Sunnyvale"; "Fremont"; "Palo"; "Alto"; "Cupertino"; "San"; "Mateo"; "Antioch";
    "San"; "Francisco"; "Campbell"; "Los"; "Gatos"; "Milpitas"; "Portola"; "Valley";
    "Stanford"; "South"; "San"; "Francisco"; "Mon"; "Tue"; "Wed"; "Thu"; "Fri";
    "Sat"; "Sun" ].

Definition common_words : list string :=
  [ "the"; "and"; "or"; "but"; "in"; "on"; "at"; "to"; "for"; "of"; "with"; "by" ].

(** [any(keyword.lower() in text.lower() for keyword in skip_keywords)] *)
Definition has_skip_keyword (text : string) : bool :=
  List.existsb (λ keyword, Py.contains (Py.lower keyword) (Py.lower text)) skip_keywords.

Definition looks_like_player_name (text : string) : bool :=
  if (Py.len text <? 3)%nat then false
  else if has_skip_keyword text then false
  else if Py.isupper text && (3 <? Py.len text)%nat then false
  else if Py.match_numbers_only text then false
  else if Py.match_name_shape text && (1 <=? length (Py.split text))%nat then
    if bool_decide (Py.lower text ∈ common_words) then false else true
  else false.


(** ** Parsed pages

    What the analyzer reads of a BeautifulSoup object: tags with a name, an
    attribute dictionary and contents, and the strings between them. *)

#[warnings="-register-all"] Inductive node : Type :=
  | NavigableString (s : string)
  | Tag (name : string) (attrs : gmap string string) (contents : list node).

(** [tag.descendants]: every node below [tag], in document order. *)
Fixpoint descendants (n : node) : list node :=
  match n with
  | NavigableString _ => []
  | Tag _ _ contents =>
      (fix go (l : list node) : list node :=
         match l with
         | [] => []
         | c :: r => c :: descendants c ++ go r
         end) contents
  end.

Definition tag_named (names : list string) (n : node) : bool :=
  match n with
  | NavigableString _ => false
  | Tag name _ _ => bool_decide (name ∈ names)
  end.

(** [tag.get(key)] *)
Definition get (key : string) (n : node) : option string :=
  match n with
  | NavigableString _ => None
  | Tag _ attrs _ => attrs !! key
  end.

(** [tag.find_all(names)] *)
Definition find_all (names : list string) (n : node) : list node :=
  List.filter (tag_named names) (descendants n).

(** [tag.find_all('a', href=re.compile(lit + r'\d+'))] for a literal [lit],
    with the dots and question marks of the source's patterns escaped: the
    [a] tags whose [href] has a match of the pattern somewhere. *)
Definition href_matches (lit : string) (n : node) : bool :=
  match get "href" n with
  | Some href => bool_decide (is_Some (Py.search_digits_after lit href))
  | None => false
  end.
Definition find_all_a_href (lit : string) (n : node) : list node :=
  List.filter (λ t, tag_named ["a"] t && href_matches lit t) (descendants n).

(** [tag.get_text(strip=True)]: the strings below the tag, each stripped,
    the empty ones dropped, joined without a separator. *)
Definition stripped_strings (n : node) : list string :=
  List.filter (λ s, negb (bool_decide (s = "")))
    (omap (λ d, match d with
                | NavigableString s => Some (Py.strip s)
                | Tag _ _ _ => None
                end) (descendants n)).
Definition get_text (n : node) : string := Py.join "" (stripped_strings n).

(** ** Records of the analyzer

    The dictionaries with the keys ['id'], ['name'], ['url'] of a team and
    ['id'], ['name'], ['team'] of a player. *)

Record Team : Type := mkTeam
  { team_id : string; team_name : string; team_url : string }.

Record Player : Type := mkPlayer
  { player_id : string; player_name : string; player_team : string }.

Global Instance Team_eq_dec : EqDecision Team.
Proof. solve_decision. Defined.
Global Instance Player_eq_dec : EqDecision Player.
Proof. solve_decision. Defined.

(** ** Effects *)

(** What [session.get(url, timeout=10)] followed by [raise_for_status()]
    gives: the text of the response, or a [RequestException]. *)
Inductive Response : Type :=
  | ResponseText (text : string)
  | RequestException (e : string).

Inductive event : Type :=
  | Print (line : string)
  | Request (url : string)
  | Sleep (seconds : nat).

Global Instance event_eq_dec : EqDecision event.
Proof. solve_decision. Defined.

(** [if not x] for an optional string: [None] and the empty string. *)
Definition falsy (x : option string) : bool :=
  match x with
  | None => true
  | Some s => bool_decide (s = "")
  end.

Definition base_url : string := "https://leagues.ustanorcal.com".

(** [f"{self.base_url}/playermatches.asp?id={player_id}"] *)
Definition profile_url (player_id : string) : string :=
  base_url +:+ "/playermatches.asp?id=" +:+ player_id.

Definition newline : string := String "010"%char "".

(** The values of the locals of [analyze_captain] from which the report is
    printed.  They are printed, not returned. *)
Record Analysis : Type := mkAnalysis
  { captain_id : string;
    captain_name : option string;
    teams : list Team;
    all_players : list Player;
    player_counts : gmap string nat }.

Definition total_appearances (r : Analysis) : nat := length (all_players r).

(** What [analyze_captain] returns: [None] on every path, the bare [return]
    of line 209 and the end of the function.  [None] is the only value of
    the type. *)
Definition NoneType : Type := option Empty_set.

(** [player_counts[player['name']] += 1] on a [defaultdict(int)] *)
Definition increment (counts : gmap string nat) (player : Player) : gmap string nat :=
  <[player_name player := (default 0 (counts !! player_name player) + 1)%nat]> counts.

(** The loop of lines 220-222. *)
Definition count_players (all_players : list Player) : gmap string nat :=
  foldl increment ∅ all_players.

(** The order of [sorted(..., key=lambda x: (-x[1], x[0]))]. *)
Definition report_order (x y : string * nat) : Prop :=
  (y.2 < x.2)%nat ∨ (x.2 = y.2 ∧ String.le x.1 y.1).

Global Instance report_order_dec : RelDecision report_order.
Proof. intros x y. unfold report_order. apply _. Defined.

Section Analyzer.

Context {World : Type}.
(** The session of [requests], the parser [BeautifulSoup(html,
    'html.parser')] and [urllib.parse.urljoin]. *)
Variable session_get : string → World → Response * World.
Variable BeautifulSoup : string → node.
Variable urljoin : string → string → string.

(** A computation reads and changes the network and leaves a trace. *)
Definition M (A : Type) : Type := World → A * list event * World.

Definition ret {A} (a : A) : M A := λ w, (a, [], w).
Definition bind {A B} (m : M A) (k : A → M B) : M B :=
  λ w, let '(a, t1, w1) := m w in
       let '(b, t2, w2) := k a w1 in
       (b, t1 ++ t2, w2).
Definition emit (e : event) : M unit := λ w, (tt, [e], w).
Definition print (line : string) : M unit := emit (Print line).

Definition result {A} (x : A * list event * World) : A := x.1.1.
Definition trace {A} (x : A * list event * World) : list event := x.1.2.
Definition final {A} (x : A * list event * World) : World := x.2.

Notation "'let*' x ':=' m 'in' k" := (bind m (λ x, k))
  (at level 10, x pattern, m at level 100, k at level 200).
Notation "m ';;;' k" := (bind m (λ _, k))
  (at level 100, k at level 200, right associativity).

(** [for x in l: s = body(x, s)] *)
Fixpoint for_each {A S} (l : list A) (body : A → S → M S) (s : S) : M S :=
  match l with
  | [] => ret s
  | x :: r => let* s' := body x s in for_each r body s'
  end.

Definition get_page (url : string) : M (option string) :=
  print ("Fetching: " +:+ url);;;
  emit (Request url);;;
  λ w, match session_get url w with
       | (ResponseText text, w') => (Some text, [Sleep 1], w')
       | (RequestException e, w') =>
           (None, [Print ("Error fetching " +:+ url +:+ ": " +:+ e)], w')
       end.

(** *** [parse_player_page] *)

(** The test of lines 58 and 60 on the text of a heading. *)
Definition heading_is_name (text : string) : bool :=
  negb (bool_decide (text = "")) && (3 <? Py.len text)%nat
  && negb (Py.any_in ["usta"; "northern"; "california"; "leagues"; "matches"]
             (Py.lower text))
  && (Py.match_name_shape text && (2 <=? length (Py.split text))%nat).

(** The test of lines 73 and 74 on the text of a cell of the first table. *)
Definition cell_is_name (text : string) : bool :=
  negb (bool_decide (text = "")) && (3 <? Py.len text)%nat
  && Py.match_name_shape text && (2 <=? length (Py.split text))%nat
  && negb (Py.any_in ["usta"; "northern"; "california"; "leagues"; "matches";
                      "rating"; "expiration"] (Py.lower text)).

(** Lines 54-76: the first heading that passes, else the first cell of the
    first table that passes. *)
Definition find_player_name (soup : node) : option string :=
  let player_name :=
    List.find heading_is_name (get_text <$> find_all ["h1"; "h2"; "h3"; "b"] soup) in
  if falsy player_name then
    match find_all ["table"] soup with
    | first_table :: _ =>
        match List.find cell_is_name (get_text <$> find_all ["td"; "th"] first_table) with
        | Some text => Some text
        | None => player_name
        end
    | [] => player_name
    end
  else player_name.

(** The body of the loop of lines 82-95.  The links come from [find_all]
    with a pattern on [href], so [link.get('href')] is a string. *)
Definition team_link_step (link : node) (captain_teams : list Team) : M (list Team) :=
  let team_text := get_text link in
  if Py.contains "Captain" team_text then
    match get "href" link with
    | Some href =>
        match Py.search_digits_after "id=" href with
        | Some team_id =>
            print ("Found captain team: " +:+ team_text +:+ " (ID: " +:+ team_id +:+ ")");;;
            ret (captain_teams ++ [mkTeam team_id team_text (urljoin base_url href)])
        | None => ret captain_teams
        end
    | None => ret captain_teams
    end
  else ret captain_teams.

Definition parse_player_page (player_id : string) : M (list Team * option string) :=
  let url := profile_url player_id in
  let* html := get_page url in
  match html with
  | None => ret ([], None)
  | Some html =>
      if bool_decide (html = "") then ret ([], None)
      else
        let soup := BeautifulSoup html in
        let player_name := find_player_name soup in
        let team_links := find_all_a_href "teaminfo.asp?id=" soup in
        let* captain_teams := for_each team_links team_link_step [] in
        ret (captain_teams, player_name)
  end.

(** *** [parse_team_page] *)

(** The body of the loop of lines 113-129, on [(players, seen_players)]. *)
Definition player_link_step (team_info : Team)
    (st : list Player * gset string) (link : node) : list Player * gset string :=
  let '(players, seen_players) := st in
  let player_text := get_text link in
  if negb (bool_decide (player_text = "")) && (2 <? Py.len player_text)%nat then
    match get "href" link with
    | Some href =>
        match Py.search_digits_after "id=" href with
        | Some player_id =>
            let player_key := player_id +:+ "_" +:+ player_text in
            if bool_decide (player_key ∈ seen_players) then st
            else (players ++ [mkPlayer player_id player_text (team_name team_info)],
                  {[player_key]} ∪ seen_players)
        | None => st
        end
    | None => st
    end
  else st.

(** The body of the innermost loop of lines 138-151. *)
Definition cell_step (team_info : Team)
    (st : list Player * gset string) (cell : node) : list Player * gset string :=
  let '(players, seen_players) := st in
  let text := get_text cell in
  if negb (bool_decide (text = "")) && looks_like_player_name text then
    if negb (List.existsb (λ p, bool_decide (player_name p = text)) players) then
      let player_key := "unknown_" +:+ text in
      if bool_decide (player_key ∈ seen_players) then st
      else (players ++ [mkPlayer "unknown" text (team_name team_info)],
            {[player_key]} ∪ seen_players)
    else st
  else st.

(** Lines 106-129: the pass over the links to player pages, from no player
    and no key. *)
Definition links_pass (team_info : Team) (soup : node) : list Player * gset string :=
  let player_links := find_all_a_href "playermatches.asp?id=" soup in
  foldl (player_link_step team_info) ([], ∅) player_links.

(** Lines 133-151: the pass over the cells of the rows of the tables. *)
Definition cells_pass (team_info : Team) (soup : node)
    (st : list Player * gset string) : list Player * gset string :=
  foldl (λ st table,
    foldl (λ st row,
      foldl (cell_step team_info) st (find_all ["td"; "th"] row))
      st (find_all ["tr"] table))
    st (find_all ["table"] soup).

(** Lines 105-151: the two passes over a parsed team page. *)
Definition extract_players (team_info : Team) (soup : node) : list Player :=
  (cells_pass team_info soup (links_pass team_info soup)).1.

Definition parse_team_page (team_info : Team) : M (list Player) :=
  let* html := get_page (team_url team_info) in
  if falsy html then ret []
  else
    let soup := BeautifulSoup (default "" html) in
    let players := extract_players team_info soup in
    print ("Found " +:+ Py.str (length players) +:+ " players in team: "
           +:+ team_name team_info);;;
    ret players.

(** *** [analyze_captain] *)

(** The body of the loop of lines 215-217: [all_players.extend(players)]. *)
Definition roster_step (team : Team) (all_players : list Player) : M (list Player) :=
  let* players := parse_team_page team in
  ret (all_players ++ players).

(** Lines 225-245: the report. *)
Definition report_line (item : string * nat) : string :=
  Py.ljust 40 item.1 +:+ " " +:+ Py.rjust 3 (Py.str item.2) +:+ " times".

Definition print_report (r : Analysis) : M unit :=
  print (newline +:+ Py.repeat_char "=" 60);;;
  print "CAPTAIN GANG ANALYSIS RESULTS";;;
  print (Py.repeat_char "=" 60);;;
  print ("Captain ID: " +:+ captain_id r);;;
  (if falsy (captain_name r) then ret tt
   else
     let clean_name := Py.join " " (Py.split (default "" (captain_name r))) in
     print ("Captain/Co-Captain: " +:+ clean_name));;;
  print ("Teams analyzed: " +:+ Py.str (length (teams r)));;;
  print ("Total player appearances: " +:+ Py.str (length (all_players r)));;;
  print ("Unique players: " +:+ Py.str (size (player_counts r)));;;
  print (newline +:+ "Player appearances across all captain teams:");;;
  print (Py.repeat_char "-" 60);;;
  let sorted_players := merge_sort report_order (map_to_list (player_counts r)) in
  for_each sorted_players (λ item _, print (report_line item)) tt;;;
  print (newline +:+ Py.repeat_char "=" 60).

Definition analyze_captain (player_id : string) : M NoneType :=
  print ("Analyzing captain with ID: " +:+ player_id);;;
  let* (captain_teams, player_name) := parse_player_page player_id in
  match captain_teams with
  | [] =>
      print "No captain teams found!";;;
      ret None
  | _ :: _ =>
      print ("Found " +:+ Py.str (length captain_teams) +:+ " captain teams");;;
      let* all_players := for_each captain_teams roster_step [] in
      let r := mkAnalysis player_id player_name captain_teams all_players
                 (count_players all_players) in
      print_report r;;;
      ret None
  end.

End Analyzer.

(** ** What the properties are stated with *)

(** [keyword] occurs in [text] when case is ignored: some part of [text]
    has the letters of [keyword]. *)
Definition occurs_ignoring_case (keyword text : string) : Prop :=
  ∃ pre mid post, text = pre +:+ mid +:+ post ∧ Py.lower mid = Py.lower keyword.

(** [text] has the letter a, small or capital, somewhere. *)
Definition has_letter_a (text : string) : Prop :=
  ∃ pre c post, text = pre +:+ String c post ∧ (c = "a"%char ∨ c = "A"%char).

(** The sum of the counts of a table. *)
Definition total_count (counts : gmap string nat) : nat :=
  sum_list (map_to_list counts).*2.

(** The key [f"{id}_{name}"] under which [parse_team_page] remembers a
    player. *)
Definition player_key (p : Player) : string :=
  player_id p +:+ "_" +:+ player_name p.

(** The invariant of a person reference: a name that is not empty when
    trimmed, and an identifier that is a non-empty string of digits or
    ["unknown"]. *)
Definition digit_string (s : string) : Prop :=
  s ≠ "" ∧ Py.forallb Py.isdigit s = true.
Definition person_ref_ok (p : Player) : Prop :=
  Py.strip (player_name p) ≠ "" ∧
  (digit_string (player_id p) ∨ player_id p = "unknown").

(** A string without an underscore, as the identifiers are. *)
Definition no_underscore (s : string) : Prop :=
  Py.forallb (λ c, negb (bool_decide (c = "_"%char))) s = true.

(** The identifier and the name of a player, the pair the key stands for. *)
Definition id_and_name (p : Player) : string * string :=
  (player_id p, player_name p).

(** What the two loops of [parse_team_page] keep true of the players
    collected and the keys seen: every player is a person reference, the keys
    seen are the keys of the players, and no identifier and name occur
    twice. *)
Definition roster_invariant (st : list Player * gset string) : Prop :=
  Forall person_ref_ok st.1 ∧
  (∀ key, key ∈ st.2 ↔ key ∈ player_key <$> st.1) ∧
  NoDup (id_and_name <$> st.1).

(** The lines of the report, lines 225-245, for the values [r] of the
    locals: the heading, the captain, the three numbers, the table in the
    order of the report and the closing line. *)
Definition report_events (r : Analysis) : list event :=
  [ Print (newline +:+ Py.repeat_char "=" 60);
    Print "CAPTAIN GANG ANALYSIS RESULTS";
    Print (Py.repeat_char "=" 60);
    Print ("Captain ID: " +:+ captain_id r) ] ++
  (if falsy (captain_name r) then []
   else [ Print ("Captain/Co-Captain: "
                 +:+ Py.join " " (Py.split (default "" (captain_name r)))) ]) ++
  [ Print ("Teams analyzed: " +:+ Py.str (length (teams r)));
    Print ("Total player appearances: " +:+ Py.str (length (all_players r)));
    Print ("Unique players: " +:+ Py.str (size (player_counts r)));
    Print (newline +:+ "Player appearances across all captain teams:");
    Print (Py.repeat_char "-" 60) ] ++
  ((λ item, Print (report_line item)) <$>
     merge_sort report_order (map_to_list (player_counts r))) ++
  [ Print (newline +:+ Py.repeat_char "=" 60) ].

(** Whether the request for the page of a team raises. *)
Definition fetch_fails {World : Type}
    (session_get : string → World → Response * World) (url : string) (w : World) : bool :=
  match (session_get url w).1 with
  | RequestException _ => true
  | ResponseText _ => false
  end.

(** ** What the further properties are stated with *)

(** [text] has a character that is not white space, so [text.split()] has a
    word. *)
Definition has_word (text : string) : Prop :=
  Py.existsb (λ c, negb (Py.isspace c)) text = true.

(** No keyword of the denylist occurs in [text], case ignored. *)
Definition keyword_free (text : string) : Prop :=
  ∀ keyword, keyword ∈ skip_keywords → ¬ occurs_ignoring_case keyword text.

(** The cells the second pass of [parse_team_page] visits, in the order of
    the three nested loops: the cells of the rows of the tables. *)
Definition table_cells (soup : node) : list node :=
  table ← find_all ["table"] soup;
  row ← find_all ["tr"] table;
  find_all ["td"; "th"] row.

(** A player read from a link to a player page: the name is the text of the
    link, more than two characters long, and the identifier is the group of
    [id=(\d+)] in its address. *)
Definition from_link (soup : node) (p : Player) : Prop :=
  (2 < Py.len (player_name p))%nat ∧
  ∃ link href,
    link ∈ find_all_a_href "playermatches.asp?id=" soup ∧
    get_text link = player_name p ∧
    get "href" link = Some href ∧
    Py.search_digits_after "id=" href = Some (player_id p).

(** A player read from a cell: no identifier, and the name is the text of a
    cell that the heuristic accepts. *)
Definition from_cell (soup : node) (p : Player) : Prop :=
  player_id p = "unknown" ∧
  looks_like_player_name (player_name p) = true ∧
  ∃ cell, cell ∈ table_cells soup ∧ get_text cell = player_name p.

(** What the loop of lines 82-95 appends for one link, if anything: the team
    of a link whose text has the marker and whose address has [id=] and
    digits. *)
Definition team_of_link (urljoin : string → string → string) (link : node) : option Team :=
  if Py.contains "Captain" (get_text link) then
    href ← get "href" link;
    team_id ← Py.search_digits_after "id=" href;
    Some (mkTeam team_id (get_text link) (urljoin base_url href))
  else None.

(** The line printed for a team found. *)
Definition found_line (team : Team) : event :=
  Print ("Found captain team: " +:+ team_name team +:+ " (ID: " +:+ team_id team +:+ ")").

(** The addresses requested in a trace, in the order of the requests. *)
Definition requests (t : list event) : list string :=
  omap (λ e, match e with Request url => Some url | _ => None end) t.

(** The words of the site that a captain name must not contain. *)
Definition site_words : list string :=
  ["usta"; "northern"; "california"; "leagues"; "matches"].

(** The number of entries with the name [key]. *)
Definition occurrences (key : string) (entries : list Player) : nat :=
  length (filter (λ p, player_name p = key) entries).

(** A team page without links, for the second pass alone: the parser gives
    the same page for every markup and every request succeeds. *)
Module Plain.

Definition roster_html : string :=
  "<table><tr><th>Player</th><td>Bob Smith</td><td>Tom Kim</td><td>Bob Smith</td></tr></table>".
Definition roster : node :=
  Tag "[document]" ∅
    [ Tag "table" ∅
        [ Tag "tr" ∅
            [ Tag "th" ∅ [NavigableString "Player"];
              Tag "td" ∅ [NavigableString "Bob Smith"];
              Tag "td" ∅ [NavigableString "Tom Kim"];
              Tag "td" ∅ [NavigableString "Bob Smith"] ] ] ].

Definition session_get (url : string) (requests : nat) : Response * nat :=
  (ResponseText roster_html, S requests).
Definition BeautifulSoup (html : string) : node := roster.

Definition team : Team := mkTeam "500" "Team Plain - Captain" "teaminfo.asp?id=500".

End Plain.


(** ** A small site

    Pages as the parser gives them, for the runs on which the properties are
    exercised.  The network state counts the requests made. *)

Module Site.

Definition a (href text : string) : node :=
  Tag "a" {[ "href" := href ]} [NavigableString text].
Definition td (contents : list node) : node := Tag "td" ∅ contents.
Definition tr (contents : list node) : node := Tag "tr" ∅ contents.
Definition table (contents : list node) : node := Tag "table" ∅ contents.
Definition document (contents : list node) : node := Tag "[document]" ∅ contents.

Definition profile7_html : string :=
  "<h2>Smith, John</h2><a href='teaminfo.asp?id=100'>Team Alpha - Captain</a><a href='teaminfo.asp?id=200'>Team Beta - Co-Captain</a><a href='teaminfo.asp?id=300'>Team Gamma - Captain</a>".
Definition profile7 : node :=
  document
    [ Tag "h2" ∅ [NavigableString "Smith, John"];
      a "teaminfo.asp?id=100" "Team Alpha - Captain";
      a "teaminfo.asp?id=200" "Team Beta - Co-Captain";
      a "teaminfo.asp?id=300" "Team Gamma - Captain" ].

Definition profile8_html : string :=
  "<a href='teaminfo.asp?id=100'>Team Alpha - Captain</a><a href='teaminfo.asp?id=200'>Team Beta - Co-Captain</a>".
Definition profile8 : node :=
  document
    [ a "teaminfo.asp?id=100" "Team Alpha - Captain";
      a "teaminfo.asp?id=200" "Team Beta - Co-Captain" ].

Definition profile10_html : string :=
  "<h2>Smith, John</h2><a href='teaminfo.asp?id=400'>Team Delta</a>".
Definition profile10 : node :=
  document
    [ Tag "h2" ∅ [NavigableString "Smith, John"];
      a "teaminfo.asp?id=400" "Team Delta" ].

Definition roster100_html : string :=
  "<table><tr><td><a href='playermatches.asp?id=55'>Jane Doe</a></td><td>Bob Smith</td></tr><tr><td><a href='playermatches.asp?id=55'>Jane Doe</a></td></tr></table>".
Definition roster100 : node :=
  document
    [ table
        [ tr [ td [a "playermatches.asp?id=55" "Jane Doe"];
               td [NavigableString "Bob Smith"] ];
          tr [ td [a "playermatches.asp?id=55" "Jane Doe"] ] ] ].

Definition roster300_html : string :=
  "<table><tr><td><a href='playermatches.asp?id=55'>Jane Doe</a></td><td><a href='playermatches.asp?id=56'>Tom Kim</a></td></tr></table>".
Definition roster300 : node :=
  document
    [ table
        [ tr [ td [a "playermatches.asp?id=55" "Jane Doe"];
               td [a "playermatches.asp?id=56" "Tom Kim"] ] ] ].

Definition pages : list (string * (string * node)) :=
  [ ("https://leagues.ustanorcal.com/playermatches.asp?id=7", (profile7_html, profile7));
    ("https://leagues.ustanorcal.com/playermatches.asp?id=8", (profile8_html, profile8));
    ("https://leagues.ustanorcal.com/playermatches.asp?id=10", (profile10_html, profile10));
    ("https://leagues.ustanorcal.com/teaminfo.asp?id=100", (roster100_html, roster100));
    ("https://leagues.ustanorcal.com/teaminfo.asp?id=300", (roster300_html, roster300)) ].

(** Every other address, the pages of player 9 and of team 200 among them,
    is not found. *)
Definition session_get (url : string) (requests : nat) : Response * nat :=
  (match List.find (λ page, bool_decide (page.1 = url)) pages with
   | Some page => ResponseText page.2.1
   | None => RequestException ("404 Client Error: Not Found for url: " +:+ url)
   end, S requests).

Definition BeautifulSoup (html : string) : node :=
  match List.find (λ page, bool_decide (page.2.1 = html)) pages with
  | Some page => page.2.2
  | None => document [NavigableString html]
  end.

(** [urljoin] of the base address and a relative reference without a
    path. *)
Definition urljoin (base href : string) : string := base +:+ "/" +:+ href.

Definition analyze (player_id : string) : NoneType * list event * nat :=
  analyze_captain session_get BeautifulSoup urljoin player_id 0%nat.

Definition team100 : Team :=
  mkTeam "100" "Team Alpha - Captain" "https://leagues.ustanorcal.com/teaminfo.asp?id=100".
Definition team200 : Team :=
  mkTeam "200" "Team Beta - Co-Captain" "https://leagues.ustanorcal.com/teaminfo.asp?id=200".
Definition team300 : Team :=
  mkTeam "300" "Team Gamma - Captain" "https://leagues.ustanorcal.com/teaminfo.asp?id=300".

End Site.

(** ** Text lemmas *)

Section text_lemmas.
Implicit Types s p pre post : string.
Implicit Types c : ascii.

Lemma append_nil_l s : "" +:+ s = s.
Proof. reflexivity. Qed.

Lemma append_cons c s t : String c s +:+ t = String c (s +:+ t).
Proof. reflexivity. Qed.

Lemma lower_app s t : Py.lower (s +:+ t) = Py.lower s +:+ Py.lower t.
Proof.
  induction s as [|c s IH]; [done|].
  rewrite append_cons. simpl. by rewrite IH.
Qed.

Lemma startswith_app p s : Py.startswith p (p +:+ s) = true.
Proof.
  induction p as [|c p IH]; [done|].
  rewrite append_cons. simpl. rewrite IH. by rewrite bool_decide_eq_true_2.
Qed.

Lemma contains_app pre p post : Py.contains p (pre +:+ p +:+ post) = true.
Proof.
  induction pre as [|c pre IH].
  - rewrite append_nil_l. destruct (p +:+ post) eqn:E; simpl;
      rewrite <-E, startswith_app; done.
  - rewrite append_cons. simpl. rewrite IH. by rewrite orb_true_r.
Qed.

Lemma startswith_split p s :
  Py.startswith p s = true → ∃ post, s = p +:+ post.
Proof.
  revert s. induction p as [|c p IH]; intros s H.
  - by exists s.
  - destruct s as [|b s]; [done|]. simpl in H.
    apply andb_true_iff in H as [Hc Hp]. apply bool_decide_eq_true in Hc as ->.
    destruct (IH _ Hp) as [post ->]. by exists post.
Qed.

Lemma contains_split p s :
  Py.contains p s = true → ∃ pre post, s = pre +:+ p +:+ post.
Proof.
  induction s as [|c s IH]; simpl; intros H.
  - rewrite orb_false_r in H. apply startswith_split in H as [post ->].
    by exists "", post.
  - apply orb_true_iff in H as [H|H].
    + apply startswith_split in H as [post ->]. by exists "", post.
    + destruct (IH H) as (pre & post & ->). by exists (String c pre), post.
Qed.

Lemma lower_split t a b :
  Py.lower t = a +:+ b → ∃ ta tb, t = ta +:+ tb ∧ Py.lower ta = a ∧ Py.lower tb = b.
Proof.
  revert t. induction a as [|c a IH]; intros t H.
  - by exists "", t.
  - destruct t as [|d t]; [done|]. rewrite append_cons in H. simpl in H.
    injection H as Hd Ht. destruct (IH _ Ht) as (ta & tb & -> & Ha & Hb).
    exists (String d ta), tb. simpl. by rewrite Hd, Ha.
Qed.

(** The test of the source is the occurrence when case is ignored. *)
Lemma contains_lower_iff keyword text :
  Py.contains (Py.lower keyword) (Py.lower text) = true ↔
  occurs_ignoring_case keyword text.
Proof.
  split.
  - intros H. apply contains_split in H as (pre & post & H).
    apply lower_split in H as (tpre & rest & -> & _ & H).
    apply lower_split in H as (mid & tpost & -> & Hm & _).
    by exists tpre, mid, tpost.
  - intros (pre & mid & post & -> & Hm).
    rewrite !lower_app, Hm. apply contains_app.
Qed.

End text_lemmas.

(** ** The name heuristic *)

Lemma has_skip_keyword_occurs keyword text :
  keyword ∈ skip_keywords → occurs_ignoring_case keyword text →
  has_skip_keyword text = true.
Proof.
  intros Hin Hocc. unfold has_skip_keyword. apply existsb_exists.
  exists keyword. split; [by apply list_elem_of_In|].
  by apply contains_lower_iff.
Qed.

Lemma has_skip_keyword_rejects text :
  has_skip_keyword text = true → looks_like_player_name text = false.
Proof.
  intros H. unfold looks_like_player_name. rewrite H.
  by destruct (Py.len text <? 3)%nat.
Qed.

(** C1: the heuristic rejects "Captain", "RATING", "12-34", "Mon" and
    "San Jose" and accepts "Smith, John"; it rejects "Maria Garcia", in which
    the keyword "a" of the denylist occurs. *)
Theorem looks_like_player_name_examples :
  looks_like_player_name "Captain" = false ∧
  looks_like_player_name "RATING" = false ∧
  looks_like_player_name "12-34" = false ∧
  looks_like_player_name "Mon" = false ∧
  looks_like_player_name "San Jose" = false ∧
  looks_like_player_name "Smith, John" = true ∧
  looks_like_player_name "Maria Garcia" = false ∧
  Py.contains (Py.lower "a") (Py.lower "Maria Garcia") = true.
Proof. repeat split; vm_compute; reflexivity. Qed.

(** C10: a text in which a keyword of the denylist occurs anywhere, case
    ignored, is rejected; "a" is such a keyword, so every text with the
    letter a, small or capital, is rejected. *)
Theorem denylist_is_substring_test (text : string) :
  (∀ keyword, keyword ∈ skip_keywords → occurs_ignoring_case keyword text →
     looks_like_player_name text = false) ∧
  "a" ∈ skip_keywords ∧
  (has_letter_a text → looks_like_player_name text = false).
Proof.
  assert (Ha : "a" ∈ skip_keywords) by (apply (bool_decide_unpack _); vm_compute; exact I).
  split_and!; [|done|].
  - intros keyword Hin Hocc.
    by apply has_skip_keyword_rejects, has_skip_keyword_occurs with keyword.
  - intros (pre & c & post & -> & Hc).
    apply has_skip_keyword_rejects, has_skip_keyword_occurs with "a"; [done|].
    exists pre, (String c ""), post. split; [done|].
    by destruct Hc as [-> | ->].
Qed.

Lemma denylist_is_substring_test_witness :
  looks_like_player_name "Edwin" = false ∧ looks_like_player_name "MARIA" = false.
Proof.
  split.
  - apply (denylist_is_substring_test "Edwin") with (keyword := "Win").
    + apply (bool_decide_unpack _). vm_compute. exact I.
    + exists "Ed", "win", "". split; reflexivity.
  - apply (denylist_is_substring_test "MARIA").
    exists "M", "A"%char, "RIA". split; [reflexivity | by right].
Defined.

(** ** The frequency table *)

Section counting.
Implicit Types counts : gmap string nat.
Implicit Types entries : list Player.

Lemma total_count_increment counts player :
  total_count (increment counts player) = S (total_count counts).
Proof.
  unfold total_count, increment.
  destruct (counts !! player_name player) as [n|] eqn:E; simpl.
  - rewrite <-insert_delete_eq.
    rewrite map_to_list_insert by apply lookup_delete_eq.
    rewrite <-(map_to_list_delete counts _ _ E). simpl. lia.
  - by rewrite map_to_list_insert.
Qed.

Lemma lookup_increment counts player key :
  default 0%nat (increment counts player !! key) =
  (default 0%nat (counts !! key) + if decide (player_name player = key) then 1 else 0)%nat.
Proof.
  unfold increment. destruct (decide (player_name player = key)) as [->|Hne].
  - by rewrite lookup_insert_eq.
  - rewrite lookup_insert_ne by done. lia.
Qed.

Lemma positive_increment counts player key :
  (∀ k n, counts !! k = Some n → 0 < n)%nat →
  ∀ n, increment counts player !! key = Some n → (0 < n)%nat.
Proof.
  intros Hpos n. unfold increment.
  destruct (decide (player_name player = key)) as [->|Hne].
  - rewrite lookup_insert_eq. intros [= <-]. lia.
  - rewrite lookup_insert_ne by done. apply Hpos.
Qed.

Lemma foldl_increment_total entries counts :
  total_count (foldl increment counts entries) = (total_count counts + length entries)%nat.
Proof.
  revert counts. induction entries as [|p entries IH]; intros counts; simpl; [lia|].
  rewrite IH, total_count_increment. lia.
Qed.

Lemma foldl_increment_lookup entries counts key :
  default 0%nat (foldl increment counts entries !! key) =
  (default 0%nat (counts !! key)
   + length (filter (λ p, player_name p = key) entries))%nat.
Proof.
  revert counts. induction entries as [|p entries IH]; intros counts; simpl; [lia|].
  rewrite IH, lookup_increment, filter_cons.
  destruct (decide (player_name p = key)); simpl; lia.
Qed.

Lemma foldl_increment_positive entries counts :
  (∀ k n, counts !! k = Some n → 0 < n)%nat →
  ∀ k n, foldl increment counts entries !! k = Some n → (0 < n)%nat.
Proof.
  revert counts. induction entries as [|p entries IH]; intros counts Hpos; simpl; [done|].
  apply IH. intros k n. by apply positive_increment.
Qed.

End counting.

(** C3: the counts of the table add up to the number of entries, and the
    count under a key is the number of entries with exactly that name; the
    keys are the names that occur. *)
Theorem count_players_spec (entries : list Player) :
  total_count (count_players entries) = length entries ∧
  ∀ key,
    default 0%nat (count_players entries !! key) =
      length (filter (λ p, player_name p = key) entries) ∧
    (is_Some (count_players entries !! key) ↔ key ∈ player_name <$> entries).
Proof.
  unfold count_players. split.
  - rewrite foldl_increment_total. unfold total_count.
    by rewrite map_to_list_empty.
  - intros key.
    pose proof (foldl_increment_lookup entries ∅ key) as Hk.
    rewrite lookup_empty in Hk. simpl in Hk. split; [done|].
    assert (Hlen : (0 < length (filter (λ p, player_name p = key) entries))%nat
                   ↔ key ∈ player_name <$> entries).
    { rewrite list_elem_of_fmap. split.
      - intros Hl. destruct (filter _ entries) as [|p l] eqn:E; [simpl in Hl; lia|].
        assert (Hp : p ∈ filter (λ p, player_name p = key) entries)
          by (rewrite E; left).
        apply list_elem_of_filter in Hp as [? ?]. by exists p.
      - intros (p & -> & Hp).
        assert (Hf : p ∈ filter (λ q, player_name q = player_name p) entries)
          by (by apply list_elem_of_filter).
        destruct (filter _ entries); [by apply elem_of_nil in Hf | simpl; lia]. }
    rewrite <-Hlen, <-Hk. split.
    + intros [n Hn]. rewrite Hn. simpl.
      eapply (foldl_increment_positive entries ∅); [|done].
      intros k m. by rewrite lookup_empty.
    + destruct (foldl increment ∅ entries !! key); [by eexists | simpl; lia].
Qed.

(** ** The players of a team page *)

Section strip_lemmas.
Implicit Types s r : string.
Implicit Types c : ascii.

Lemma lstrip_head s c r : Py.lstrip s = String c r → Py.isspace c = false.
Proof.
  induction s as [|a s IH]; simpl; [done|].
  destruct (Py.isspace a) eqn:E; [done|]. by intros [= <- _].
Qed.

Lemma strip_head s c r : Py.strip s = String c r → Py.isspace c = false.
Proof. apply lstrip_head. Qed.

Lemma rstrip_cons c r : Py.isspace c = false → ∃ r', Py.rstrip (String c r) = String c r'.
Proof.
  intros Hc. simpl. destruct (Py.rstrip r); [|by eexists].
  rewrite Hc. by eexists.
Qed.

Lemma strip_cons c r : Py.isspace c = false → Py.strip (String c r) ≠ "".
Proof.
  intros Hc. unfold Py.strip. destruct (rstrip_cons c r Hc) as [r' ->].
  simpl. by rewrite Hc.
Qed.

(** A text made of stripped pieces is empty or starts with a character that
    is not white space. *)
Lemma join_stripped (pieces : list string) :
  Forall (λ s, ∃ c r, s = String c r ∧ Py.isspace c = false) pieces →
  Py.join "" pieces ≠ "" → Py.strip (Py.join "" pieces) ≠ "".
Proof.
  intros Hall Hne. destruct Hall as [|s pieces (c & r & -> & Hc) _]; [done|].
  destruct pieces; simpl; by apply strip_cons.
Qed.

Lemma stripped_strings_head (n : node) :
  Forall (λ s, ∃ c r, s = String c r ∧ Py.isspace c = false) (stripped_strings n).
Proof.
  unfold stripped_strings. apply Forall_forall. intros s Hs.
  apply list_elem_of_In, filter_In in Hs as [Hs Hne].
  apply list_elem_of_In, list_elem_of_omap in Hs as (d & _ & Hd).
  destruct d as [t|]; [|done]. injection Hd as <-.
  destruct (Py.strip t) as [|c r] eqn:E; [done|].
  exists c, r. split; [done|]. by apply strip_head in E.
Qed.

Lemma get_text_strip (n : node) : get_text n ≠ "" → Py.strip (get_text n) ≠ "".
Proof. apply join_stripped, stripped_strings_head. Qed.

Lemma take_digits_digits s : Py.forallb Py.isdigit (Py.take_digits s) = true.
Proof.
  induction s as [|c s IH]; simpl; [done|].
  destruct (Py.isdigit c) eqn:E; [|done]. simpl. by rewrite E, IH.
Qed.

Lemma take_digits_group s ds :
  match Py.take_digits s with
  | "" => None
  | String c r => Some (String c r)
  end = Some ds → digit_string ds.
Proof.
  pose proof (take_digits_digits s) as Hd.
  destruct (Py.take_digits s); [done|]. by intros [= <-].
Qed.

(** The group of [id=(\d+)] is a non-empty string of digits. *)
Lemma search_digits_after_digits lit s ds :
  Py.search_digits_after lit s = Some ds → digit_string ds.
Proof.
  induction s as [|c s IH]; simpl.
  - destruct (Py.startswith lit ""); [|done].
    destruct (match Py.take_digits _ with "" => None | String a r => Some (String a r) end)
      eqn:E; [|done].
    intros [= <-]. by apply take_digits_group in E.
  - destruct (Py.startswith lit (String c s)); [|exact IH].
    destruct (match Py.take_digits _ with "" => None | String a r => Some (String a r) end)
      eqn:E; [|exact IH].
    intros [= <-]. by apply take_digits_group in E.
Qed.

(** No digit is an underscore, so the key [f"{id}_{name}"] determines the
    identifier and the name. *)
Lemma digit_string_no_underscore s : digit_string s → no_underscore s.
Proof.
  intros [_ H]. unfold no_underscore. induction s as [|c s IH]; [done|].
  simpl in *. apply andb_true_iff in H as [Hc Hs]. rewrite (IH Hs), andb_true_r.
  apply negb_true_iff, bool_decide_eq_false. by intros ->.
Qed.

Lemma key_inj id1 name1 id2 name2 :
  no_underscore id1 → no_underscore id2 →
  id1 +:+ "_" +:+ name1 = id2 +:+ "_" +:+ name2 → id1 = id2 ∧ name1 = name2.
Proof.
  unfold no_underscore. revert id2.
  induction id1 as [|c id1 IH]; intros [|d id2] H1 H2 H; simpl in *.
  - rewrite !append_nil_l in H. by injection H.
  - rewrite append_nil_l, append_cons in H. injection H as <- _.
    by rewrite bool_decide_eq_true_2 in H2.
  - rewrite append_nil_l, append_cons in H. injection H as -> _.
    by rewrite bool_decide_eq_true_2 in H1.
  - rewrite !append_cons in H. injection H as -> H.
    apply andb_true_iff in H1 as [_ H1]. apply andb_true_iff in H2 as [_ H2].
    destruct (IH _ H1 H2 H) as [-> ->]. done.
Qed.

End strip_lemmas.

Section roster.
Implicit Types st : list Player * gset string.
Implicit Types players : list Player.
Implicit Types link cell : node.

Lemma person_ref_no_underscore p : person_ref_ok p → no_underscore (player_id p).
Proof.
  intros [_ [H| ->]]; [by apply digit_string_no_underscore | done].
Qed.

(** Adding a player whose key was not seen keeps the invariant. *)
Lemma roster_invariant_add players (seen : gset string) p :
  roster_invariant (players, seen) → person_ref_ok p → player_key p ∉ seen →
  roster_invariant (players ++ [p], {[player_key p]} ∪ seen).
Proof.
  intros (Hok & Hseen & Hnodup) Hp Hkey. simpl in *. split_and!; simpl.
  - apply Forall_app. split; [done|]. by apply Forall_singleton.
  - intros key. rewrite fmap_app, elem_of_app, elem_of_union, Hseen. simpl.
    rewrite elem_of_singleton, list_elem_of_singleton. tauto.
  - rewrite fmap_app. apply NoDup_app. split_and!; [done| |apply NoDup_singleton].
    intros pair Hin Hp'. apply list_elem_of_singleton in Hp' as ->.
    apply list_elem_of_fmap in Hin as (q & Hq & Hin).
    apply Hkey, Hseen, list_elem_of_fmap. exists q. split; [|done].
    unfold id_and_name in Hq. unfold player_key. by injection Hq as -> ->.
Qed.

Lemma player_link_step_invariant team_info st link :
  roster_invariant st → roster_invariant (player_link_step team_info st link).
Proof.
  destruct st as [players seen]. intros Hinv. unfold player_link_step.
  destruct (negb _ && _) eqn:Htext; [|done].
  destruct (get "href" link) as [href|]; [|done].
  destruct (Py.search_digits_after "id=" href) as [pid|] eqn:Hid; [|done].
  destruct (bool_decide (_ ∈ seen)) eqn:Hseen; [done|].
  apply bool_decide_eq_false in Hseen.
  apply (roster_invariant_add _ _ (mkPlayer pid (get_text link) (team_name team_info)));
    [done| |done].
  apply andb_true_iff in Htext as [Hne _].
  apply negb_true_iff, bool_decide_eq_false in Hne.
  split; simpl; [by apply get_text_strip|].
  left. by apply search_digits_after_digits in Hid.
Qed.

Lemma cell_step_invariant team_info st cell :
  roster_invariant st → roster_invariant (cell_step team_info st cell).
Proof.
  destruct st as [players seen]. intros Hinv. unfold cell_step.
  destruct (negb _ && _) eqn:Htext; [|done].
  destruct (negb (List.existsb _ _)); [|done].
  destruct (bool_decide (_ ∈ seen)) eqn:Hseen; [done|].
  apply bool_decide_eq_false in Hseen.
  apply (roster_invariant_add _ _ (mkPlayer "unknown" (get_text cell) (team_name team_info)));
    [done| |done].
  apply andb_true_iff in Htext as [Hne _].
  apply negb_true_iff, bool_decide_eq_false in Hne.
  split; simpl; [by apply get_text_strip | by right].
Qed.

(** The loops only add players. *)
Lemma player_link_step_keeps team_info st link p :
  p ∈ st.1 → p ∈ (player_link_step team_info st link).1.
Proof.
  destruct st as [players seen]. unfold player_link_step. simpl. intros Hp.
  repeat (case_match; simpl; try done); apply elem_of_app; by left.
Qed.

Lemma cell_step_keeps team_info st cell p :
  p ∈ st.1 → p ∈ (cell_step team_info st cell).1.
Proof.
  destruct st as [players seen]. unfold cell_step. simpl. intros Hp.
  repeat (case_match; simpl; try done); apply elem_of_app; by left.
Qed.

Lemma foldl_preserves {A B} (P : A → Prop) (f : A → B → A) (l : list B) (a : A) :
  (∀ a x, P a → P (f a x)) → P a → P (foldl f a l).
Proof.
  intros Hf. revert a. induction l as [|x l IH]; intros a Ha; simpl; [done|].
  by apply IH, Hf.
Qed.

Lemma foldl_keeps {B} (f : list Player * gset string → B → list Player * gset string)
    (l : list B) st p :
  (∀ st x, p ∈ st.1 → p ∈ (f st x).1) → p ∈ st.1 → p ∈ (foldl f st l).1.
Proof. intros Hf. by apply (foldl_preserves (λ st, p ∈ st.1)). Qed.

Lemma roster_invariant_empty : roster_invariant ([], ∅).
Proof. split_and!; simpl; [done|set_solver|constructor]. Qed.

Lemma links_pass_invariant team_info soup :
  roster_invariant (links_pass team_info soup).
Proof.
  unfold links_pass.
  apply foldl_preserves; [intros; by apply player_link_step_invariant|].
  apply roster_invariant_empty.
Qed.

Lemma cells_pass_invariant team_info soup st :
  roster_invariant st → roster_invariant (cells_pass team_info soup st).
Proof.
  intros Hst. unfold cells_pass. apply foldl_preserves; [|done].
  intros st1 table H1. apply foldl_preserves; [|done].
  intros st2 row H2. apply foldl_preserves; [|done].
  intros; by apply cell_step_invariant.
Qed.

Lemma cells_pass_keeps team_info soup st p :
  p ∈ st.1 → p ∈ (cells_pass team_info soup st).1.
Proof.
  unfold cells_pass. apply foldl_keeps. intros st1 table. apply foldl_keeps.
  intros st2 row. apply foldl_keeps. intros; by apply cell_step_keeps.
Qed.

Lemma extract_players_invariant team_info soup :
  Forall person_ref_ok (extract_players team_info soup) ∧
  NoDup (id_and_name <$> extract_players team_info soup).
Proof.
  destruct (cells_pass_invariant team_info soup _ (links_pass_invariant team_info soup))
    as (Hok & _ & Hnodup).
  done.
Qed.

(** A link that passes the tests has its player among the players after its
    step: the player is added, or the key was seen and is the key of a
    player with the same identifier and name. *)
Lemma player_link_step_has team_info st link href pid :
  roster_invariant st →
  get_text link ≠ "" → (2 < Py.len (get_text link))%nat →
  get "href" link = Some href → Py.search_digits_after "id=" href = Some pid →
  ∃ p, p ∈ (player_link_step team_info st link).1 ∧ id_and_name p = (pid, get_text link).
Proof.
  destruct st as [players seen]. intros (Hok & Hseen & _) Hne Hlen Hhref Hid.
  unfold player_link_step. rewrite Hhref, Hid.
  rewrite bool_decide_eq_false_2 by done.
  apply Nat.ltb_lt in Hlen. rewrite Hlen. simpl in *.
  destruct (bool_decide (_ ∈ seen)) eqn:Hin; simpl.
  - apply bool_decide_eq_true, Hseen, list_elem_of_fmap in Hin as (q & Hkey & Hq).
    exists q. split; [done|].
    rewrite Forall_forall in Hok. unfold player_key in Hkey.
    apply key_inj in Hkey as [Hi Hn].
    + unfold id_and_name. by rewrite Hi, Hn.
    + apply digit_string_no_underscore. by eapply search_digits_after_digits.
    + by apply person_ref_no_underscore, Hok.
  - eexists. split; [apply elem_of_app; right; by apply list_elem_of_singleton|done].
Qed.

Lemma links_fold_has team_info (links : list node) st link href pid :
  roster_invariant st → link ∈ links →
  get_text link ≠ "" → (2 < Py.len (get_text link))%nat →
  get "href" link = Some href → Py.search_digits_after "id=" href = Some pid →
  ∃ p, p ∈ (foldl (player_link_step team_info) st links).1 ∧
       id_and_name p = (pid, get_text link).
Proof.
  intros Hst Hin Hne Hlen Hhref Hid. revert st Hst.
  induction links as [|x links IH]; intros st Hst; [by apply elem_of_nil in Hin|].
  simpl. apply elem_of_cons in Hin as [<-|Hin].
  - destruct (player_link_step_has team_info st link href pid) as (p & Hp & Hpair);
      [done..|].
    exists p. split; [|done].
    apply foldl_keeps; [|done]. intros; by apply player_link_step_keeps.
  - apply IH; [done|]. by apply player_link_step_invariant.
Qed.

Lemma filter_image_none {A B} `{EqDecision B} (f : A → B) (l : list A) (b : B) :
  b ∉ f <$> l → filter (λ y, f y = b) l = [].
Proof.
  induction l as [|a l IH]; [done|].
  rewrite fmap_cons, not_elem_of_cons. intros [Hne Hl].
  rewrite filter_cons, decide_False by done. by apply IH.
Qed.

(** Without duplicates under [f], exactly one element has the image of a
    member. *)
Lemma filter_image_one {A B} `{EqDecision B} (f : A → B) (l : list A) (x : A) :
  NoDup (f <$> l) → x ∈ l → length (filter (λ y, f y = f x) l) = 1%nat.
Proof.
  induction l as [|a l IH]; intros Hnodup Hin; [by apply elem_of_nil in Hin|].
  rewrite fmap_cons in Hnodup. apply NoDup_cons in Hnodup as [Ha Hnodup].
  rewrite filter_cons. destruct (decide (f a = f x)) as [Heq|Hne].
  - rewrite Heq in Ha. by rewrite filter_image_none.
  - apply elem_of_cons in Hin as [->|Hin]; [done|]. by apply IH.
Qed.

End roster.

(** ** Runs of the analyzer *)

Section runs.
Context {World : Type}.
Variable session_get : string → World → Response * World.
Variable BeautifulSoup : string → node.
Variable urljoin : string → string → string.

Implicit Types w : World.
Implicit Types links : list node.

Lemma result_bind {A B} (m : M A) (k : A → M B) w :
  result (bind m k w) = result (k (result (m w)) (final (m w))).
Proof.
  unfold bind, result, final. destruct (m w) as [[a t1] w1]. simpl.
  by destruct (k a w1) as [[b t2] w2].
Qed.

Lemma final_bind {A B} (m : M A) (k : A → M B) w :
  final (bind m k w) = final (k (result (m w)) (final (m w))).
Proof.
  unfold bind, result, final. destruct (m w) as [[a t1] w1]. simpl.
  by destruct (k a w1) as [[b t2] w2].
Qed.

Lemma result_ret {A} (a : A) w : result (ret a w) = a.
Proof. reflexivity. Qed.

Lemma final_print line w : final (print line w) = w.
Proof. reflexivity. Qed.

Lemma get_page_run url w :
  get_page session_get url w =
    match session_get url w with
    | (ResponseText text, w') =>
        (Some text, [Print ("Fetching: " +:+ url); Request url; Sleep 1], w')
    | (RequestException e, w') =>
        (None,
         [Print ("Fetching: " +:+ url); Request url;
          Print ("Error fetching " +:+ url +:+ ": " +:+ e)], w')
    end.
Proof.
  unfold get_page, bind, print, emit.
  by destruct (session_get url w) as [[text|e] w'].
Qed.

(** The three outcomes of [parse_player_page]. *)
Lemma parse_player_page_run player_id w :
  parse_player_page session_get BeautifulSoup urljoin player_id w =
    let url := profile_url player_id in
    match session_get url w with
    | (RequestException e, w') =>
        (([], None),
         [Print ("Fetching: " +:+ url); Request url;
          Print ("Error fetching " +:+ url +:+ ": " +:+ e)], w')
    | (ResponseText html, w') =>
        if bool_decide (html = "") then
          (([], None), [Print ("Fetching: " +:+ url); Request url; Sleep 1], w')
        else
          let soup := BeautifulSoup html in
          let links :=
            for_each (find_all_a_href "teaminfo.asp?id=" soup)
              (team_link_step urljoin) [] w' in
          ((result links, find_player_name soup),
           [Print ("Fetching: " +:+ url); Request url; Sleep 1] ++ trace links,
           final links)
    end.
Proof.
  unfold parse_player_page, bind. cbv zeta. rewrite get_page_run.
  destruct (session_get (profile_url player_id) w) as [[html|e] w']; [|done].
  destruct (bool_decide (html = "")); [reflexivity|].
  unfold ret, result, trace, final.
  destruct (for_each _ _ _ _) as [[teams t] w'']. simpl. by rewrite app_nil_r.
Qed.

(** The early return of [analyze_captain]. *)
Lemma analyze_captain_no_teams player_id w :
  (result (parse_player_page session_get BeautifulSoup urljoin player_id w)).1 = [] →
  analyze_captain session_get BeautifulSoup urljoin player_id w =
    (None,
     Print ("Analyzing captain with ID: " +:+ player_id)
       :: trace (parse_player_page session_get BeautifulSoup urljoin player_id w)
       ++ [Print "No captain teams found!"],
     final (parse_player_page session_get BeautifulSoup urljoin player_id w)).
Proof.
  unfold analyze_captain, bind, print, emit, ret, result, trace, final.
  destruct (parse_player_page _ _ _ _ _) as [[[teams name] t] w']. simpl.
  by intros ->.
Qed.

(** Links without the marker add no team and print nothing. *)
Lemma for_each_no_captain links captain_teams w :
  (∀ link, link ∈ links → Py.contains "Captain" (get_text link) = false) →
  for_each links (team_link_step urljoin) captain_teams w = (captain_teams, [], w).
Proof.
  induction links as [|link links IH]; intros H; [done|].
  cbn [for_each]. unfold bind.
  assert (Hstep : team_link_step urljoin link captain_teams w = (captain_teams, [], w)).
  { unfold team_link_step. by rewrite (H link) by left. }
  rewrite Hstep, IH; [done|]. intros l Hl. apply H. by right.
Qed.

(** Without markup [parse_team_page] stops before the parser is called. *)
Lemma parse_team_page_falsy (team_info : Team) w :
  falsy (result (get_page session_get (team_url team_info) w)) = true →
  result (parse_team_page session_get BeautifulSoup team_info w) = [].
Proof.
  intros H. unfold parse_team_page. by rewrite result_bind, H.
Qed.

Lemma fetch_fails_falsy url w :
  fetch_fails session_get url w = true →
  falsy (result (get_page session_get url w)) = true.
Proof.
  unfold fetch_fails. rewrite get_page_run.
  by destruct (session_get url w) as [[text|e] w'].
Qed.

(** C4: when the page of a team cannot be fetched, or is empty,
    [parse_team_page] returns the empty list. *)
Theorem parse_team_page_no_markup (team_info : Team) w :
  fetch_fails session_get (team_url team_info) w = true ∨
  (session_get (team_url team_info) w).1 = ResponseText "" →
  result (parse_team_page session_get BeautifulSoup team_info w) = [].
Proof.
  intros [H|H]; apply parse_team_page_falsy.
  - by apply fetch_fails_falsy.
  - rewrite get_page_run.
    destruct (session_get (team_url team_info) w) as [[text|e] w']; [|done].
    simpl in H. by injection H as ->.
Qed.

(** C2, as the code has it: when the request for the profile page raises,
    the run makes no other request and has no result; [get_page] prints the
    error, and [analyze_captain] then prints the message of the empty
    outcome. *)
Theorem analyze_captain_profile_fetch_fails (player_id : string) w e w' :
  session_get (profile_url player_id) w = (RequestException e, w') →
  analyze_captain session_get BeautifulSoup urljoin player_id w =
    (None,
     [Print ("Analyzing captain with ID: " +:+ player_id);
      Print ("Fetching: " +:+ profile_url player_id);
      Request (profile_url player_id);
      Print ("Error fetching " +:+ profile_url player_id +:+ ": " +:+ e);
      Print "No captain teams found!"], w').
Proof.
  intros H.
  pose proof (parse_player_page_run player_id w) as Hrun.
  cbv zeta in Hrun. rewrite H in Hrun.
  rewrite analyze_captain_no_teams; by rewrite Hrun.
Qed.

(** C5, as the code has it: when no link of the profile page carries the
    marker, the run makes the one request for the profile page, prints that
    no captain teams were found and ends without a result and without a
    report. *)
Theorem analyze_captain_no_captain_links (player_id : string) w html w' :
  session_get (profile_url player_id) w = (ResponseText html, w') →
  (∀ link, link ∈ find_all_a_href "teaminfo.asp?id=" (BeautifulSoup html) →
     Py.contains "Captain" (get_text link) = false) →
  analyze_captain session_get BeautifulSoup urljoin player_id w =
    (None,
     [Print ("Analyzing captain with ID: " +:+ player_id);
      Print ("Fetching: " +:+ profile_url player_id);
      Request (profile_url player_id);
      Sleep 1;
      Print "No captain teams found!"], w').
Proof.
  intros H Hlinks.
  pose proof (parse_player_page_run player_id w) as Hrun.
  cbv zeta in Hrun. rewrite H in Hrun.
  rewrite (for_each_no_captain _ _ _ Hlinks) in Hrun.
  rewrite analyze_captain_no_teams; rewrite Hrun; by case_bool_decide.
Qed.

(** C6: a profile page whose team links are "Team Alpha - Captain" to
    [teaminfo.asp?id=100] and "Team Beta - Co-Captain" to
    [teaminfo.asp?id=200] gives two teams, with the identifiers "100" and
    "200", in the order of the page. *)
Theorem parse_player_page_two_captain_links
    (player_id : string) w html w' (link1 link2 : node) :
  session_get (profile_url player_id) w = (ResponseText html, w') →
  html ≠ "" →
  find_all_a_href "teaminfo.asp?id=" (BeautifulSoup html) = [link1; link2] →
  get_text link1 = "Team Alpha - Captain" →
  get "href" link1 = Some "teaminfo.asp?id=100" →
  get_text link2 = "Team Beta - Co-Captain" →
  get "href" link2 = Some "teaminfo.asp?id=200" →
  let captain_teams :=
    (result (parse_player_page session_get BeautifulSoup urljoin player_id w)).1 in
  captain_teams =
    [ mkTeam "100" "Team Alpha - Captain" (urljoin base_url "teaminfo.asp?id=100");
      mkTeam "200" "Team Beta - Co-Captain" (urljoin base_url "teaminfo.asp?id=200") ] ∧
  team_id <$> captain_teams = ["100"; "200"].
Proof.
  intros H Hhtml Hlinks Ht1 Hh1 Ht2 Hh2.
  pose proof (parse_player_page_run player_id w) as Hrun.
  cbv zeta in Hrun. rewrite H, bool_decide_eq_false_2 in Hrun by done.
  cbv zeta. rewrite Hrun, Hlinks.
  cbn [for_each]. unfold bind, team_link_step.
  rewrite Ht1, Hh1, Ht2, Hh2. by vm_compute.
Qed.

(** The loop of [analyze_captain] over the teams, one team at a time. *)
Lemma roster_loop_cons team captain_teams (all_players : list Player) w :
  result (for_each (team :: captain_teams) (roster_step session_get BeautifulSoup) all_players w) =
  result (for_each captain_teams (roster_step session_get BeautifulSoup)
            (all_players ++ result (parse_team_page session_get BeautifulSoup team w))
            (final (parse_team_page session_get BeautifulSoup team w))).
Proof.
  cbn [for_each]. unfold roster_step at 1 2. by rewrite !result_bind, final_bind.
Qed.

Lemma trace_bind {A B} (m : M A) (k : A → M B) w :
  trace (bind m k w) = trace (m w) ++ trace (k (result (m w)) (final (m w))).
Proof.
  unfold bind, result, trace, final. destruct (m w) as [[a t1] w1]. simpl.
  by destruct (k a w1) as [[b t2] w2].
Qed.

(** The loop over the teams, one team at a time: result, trace and
    network. *)
Lemma roster_loop_run team captain_teams (all_players : list Player) w :
  for_each (team :: captain_teams) (roster_step session_get BeautifulSoup) all_players w =
    let roster := parse_team_page session_get BeautifulSoup team w in
    let rest :=
      for_each captain_teams (roster_step session_get BeautifulSoup)
        (all_players ++ result roster) (final roster) in
    (result rest, trace roster ++ trace rest, final rest).
Proof.
  cbn [for_each]. unfold roster_step at 1, bind, ret, result, trace, final.
  destruct (parse_team_page _ _ _ _) as [[players t] w1]. simpl.
  destruct (for_each _ _ _ _) as [[all t1] w2]. simpl. by rewrite app_nil_r.
Qed.

(** A loop that only prints. *)
Lemma for_each_print {A} (line : A → string) (items : list A) w :
  for_each items (λ item _ w', (tt, [Print (line item)], w')) tt w =
    (tt, (λ item, Print (line item)) <$> items, w).
Proof.
  revert w. induction items as [|item items IH]; intros w; [done|].
  cbn [for_each]. unfold bind. by rewrite IH.
Qed.

(** [print_report] prints the lines of the report and leaves the network as
    it is. *)
Lemma print_report_trace (r : Analysis) w :
  print_report r w = (tt, report_events r, w).
Proof.
  unfold print_report, report_events.
  destruct (falsy (captain_name r)).
  - unfold bind, print, emit, ret. simpl. rewrite for_each_print. reflexivity.
  - unfold bind, print, emit, ret. simpl. rewrite for_each_print. reflexivity.
Qed.

(** [analyze_captain], by what [parse_player_page] returns: without a team
    the message and nothing else, with teams the team pages and the
    report.  Nothing is returned on either path. *)
Lemma analyze_captain_run (player_id : string) w :
  analyze_captain session_get BeautifulSoup urljoin player_id w =
    let profile := parse_player_page session_get BeautifulSoup urljoin player_id w in
    match (result profile).1 with
    | [] =>
        (None,
         Print ("Analyzing captain with ID: " +:+ player_id)
           :: trace profile ++ [Print "No captain teams found!"],
         final profile)
    | _ :: _ =>
        let loop :=
          for_each (result profile).1 (roster_step session_get BeautifulSoup) []
            (final profile) in
        let r := mkAnalysis player_id (result profile).2 (result profile).1
                   (result loop) (count_players (result loop)) in
        (None,
         Print ("Analyzing captain with ID: " +:+ player_id)
           :: trace profile
           ++ Print ("Found " +:+ Py.str (length (result profile).1) +:+ " captain teams")
           :: trace loop ++ report_events r,
         final loop)
    end.
Proof.
  unfold analyze_captain, bind at 1 2, print at 1, emit, result, trace, final.
  destruct (parse_player_page _ _ _ _ _) as [[[teams name] t] w1]. simpl.
  destruct teams as [|team teams].
  - unfold bind, print, emit, ret. reflexivity.
  - unfold bind at 1 2 3, print at 1, emit. cbv zeta.
    destruct (for_each _ _ _ _) as [[players t1] w2].
    rewrite print_report_trace. unfold ret. simpl.
    by rewrite app_nil_r.
Qed.

(** C8: with three teams of which exactly one cannot be fetched, the run
    still reads the three team pages in the order of discovery and prints
    the report: it gives 3 teams analyzed, the team that failed gives no
    player, and the total of appearances printed is the number of players
    of the other two. *)
Theorem analyze_captain_one_roster_fails
    (player_id : string) w (t1 t2 t3 : Team) name :
  let profile := parse_player_page session_get BeautifulSoup urljoin player_id w in
  let roster1 := parse_team_page session_get BeautifulSoup t1 (final profile) in
  let roster2 := parse_team_page session_get BeautifulSoup t2 (final roster1) in
  let roster3 := parse_team_page session_get BeautifulSoup t3 (final roster2) in
  let fails1 := fetch_fails session_get (team_url t1) (final profile) in
  let fails2 := fetch_fails session_get (team_url t2) (final roster1) in
  let fails3 := fetch_fails session_get (team_url t3) (final roster2) in
  result profile = ([t1; t2; t3], name) →
  let players := result roster1 ++ result roster2 ++ result roster3 in
  let r := mkAnalysis player_id name [t1; t2; t3] players (count_players players) in
  analyze_captain session_get BeautifulSoup urljoin player_id w =
    (None,
     Print ("Analyzing captain with ID: " +:+ player_id)
       :: trace profile
       ++ Print "Found 3 captain teams"
       :: trace roster1 ++ trace roster2 ++ trace roster3
       ++ report_events r,
     final roster3) ∧
  Print "Teams analyzed: 3" ∈ report_events r ∧
  Print ("Total player appearances: " +:+ Py.str (total_appearances r))
    ∈ report_events r ∧
  (fails1 = true → fails2 = false → fails3 = false →
     result roster1 = [] ∧
     total_appearances r = (length (result roster2) + length (result roster3))%nat) ∧
  (fails1 = false → fails2 = true → fails3 = false →
     result roster2 = [] ∧
     total_appearances r = (length (result roster1) + length (result roster3))%nat) ∧
  (fails1 = false → fails2 = false → fails3 = true →
     result roster3 = [] ∧
     total_appearances r = (length (result roster1) + length (result roster2))%nat).
Proof.
  intros profile roster1 roster2 roster3 fails1 fails2 fails3 Hprofile players r.
  assert (Hloop :
    for_each [t1; t2; t3] (roster_step session_get BeautifulSoup) [] (final profile) =
    (players, trace roster1 ++ trace roster2 ++ trace roster3, final roster3)).
  { rewrite (roster_loop_run t1). cbv zeta. fold roster1.
    rewrite (roster_loop_run t2). cbv zeta. fold roster2.
    rewrite (roster_loop_run t3). cbv zeta. fold roster3.
    cbn [for_each]. unfold players, ret, result, trace, final. cbn [fst snd].
    by rewrite !app_nil_r, <-!app_assoc. }
  split_and!.
  - rewrite analyze_captain_run. cbv zeta. fold profile. rewrite Hprofile.
    cbn [fst snd]. rewrite Hloop. unfold result at 1 2, trace at 2, final at 1.
    cbn [fst snd length]. rewrite <-!app_assoc. reflexivity.
  - unfold report_events. rewrite !elem_of_app. right. right. left. left.
  - unfold report_events. rewrite !elem_of_app. right. right. left.
    right. left.
  - intros H1 H2 H3.
    assert (Hr : result roster1 = []) by (by apply parse_team_page_falsy, fetch_fails_falsy).
    split; [done|]. unfold total_appearances, r, players. cbn [all_players].
    by rewrite Hr, app_nil_l, length_app.
  - intros H1 H2 H3.
    assert (Hr : result roster2 = []) by (by apply parse_team_page_falsy, fetch_fails_falsy).
    split; [done|]. unfold total_appearances, r, players. cbn [all_players].
    by rewrite Hr, app_nil_l, length_app.
  - intros H1 H2 H3.
    assert (Hr : result roster3 = []) by (by apply parse_team_page_falsy, fetch_fails_falsy).
    split; [done|]. unfold total_appearances, r, players. cbn [all_players].
    by rewrite Hr, app_nil_r, length_app.
Qed.

(** What [parse_team_page] returns, by the outcome of the request. *)
Lemma parse_team_page_result (team_info : Team) w :
  result (parse_team_page session_get BeautifulSoup team_info w) =
    match session_get (team_url team_info) w with
    | (ResponseText html, _) =>
        if bool_decide (html = "") then []
        else extract_players team_info (BeautifulSoup html)
    | (RequestException _, _) => []
    end.
Proof.
  unfold parse_team_page. rewrite result_bind, get_page_run.
  destruct (session_get (team_url team_info) w) as [[html|e] w']; [|done].
  unfold result at 2. simpl. destruct (bool_decide (html = "")); [done|].
  by rewrite result_bind.
Qed.

(** C7: a roster page on which the link "Jane Doe" to
    [playermatches.asp?id=55] occurs twice gives exactly one player with the
    identifier "55" and the name "Jane Doe"; in one call no identifier and
    name is given twice. *)
Theorem parse_team_page_deduplicates
    (team_info : Team) w html w' (i j : nat) (link1 link2 : node) :
  session_get (team_url team_info) w = (ResponseText html, w') →
  html ≠ "" →
  let player_links := find_all_a_href "playermatches.asp?id=" (BeautifulSoup html) in
  player_links !! i = Some link1 → player_links !! j = Some link2 → i ≠ j →
  get_text link1 = "Jane Doe" → get "href" link1 = Some "playermatches.asp?id=55" →
  get_text link2 = "Jane Doe" → get "href" link2 = Some "playermatches.asp?id=55" →
  let players := result (parse_team_page session_get BeautifulSoup team_info w) in
  length (filter (λ p, id_and_name p = ("55", "Jane Doe")) players) = 1%nat ∧
  NoDup (id_and_name <$> players).
Proof.
  intros Hget Hhtml player_links Hi Hj Hij Ht1 Hh1 Ht2 Hh2 players.
  assert (Hplayers : players = extract_players team_info (BeautifulSoup html)).
  { unfold players. rewrite parse_team_page_result, Hget.
    by rewrite bool_decide_eq_false_2. }
  rewrite Hplayers.
  destruct (extract_players_invariant team_info (BeautifulSoup html)) as [_ Hnodup].
  split; [|done].
  destruct (links_fold_has team_info player_links ([], ∅) link1
              "playermatches.asp?id=55" "55") as (p & Hp & Hpair).
  - apply roster_invariant_empty.
  - by apply list_elem_of_lookup_2 in Hi.
  - by rewrite Ht1.
  - rewrite Ht1. vm_compute. lia.
  - done.
  - by vm_compute.
  - rewrite Ht1 in Hpair. rewrite <-Hpair. apply filter_image_one; [done|].
    by apply cells_pass_keeps.
Qed.

(** C9: every player that [parse_team_page] returns, from a link or from a
    cell, has a name that is not empty when trimmed and an identifier that
    is a non-empty string of digits or "unknown". *)
Theorem parse_team_page_person_refs (team_info : Team) w (p : Player) :
  p ∈ result (parse_team_page session_get BeautifulSoup team_info w) →
  Py.strip (player_name p) ≠ "" ∧
  (digit_string (player_id p) ∨ player_id p = "unknown").
Proof.
  rewrite parse_team_page_result.
  destruct (session_get (team_url team_info) w) as [[html|e] w'];
    [|by intros ?%elem_of_nil].
  destruct (bool_decide (html = "")); [by intros ?%elem_of_nil|].
  destruct (extract_players_invariant team_info (BeautifulSoup html)) as [Hok _].
  rewrite Forall_forall in Hok. apply Hok.
Qed.

End runs.

(** ** The properties on the small site *)

Lemma parse_team_page_no_markup_witness :
  fetch_fails Site.session_get (team_url Site.team200) 0%nat = true ∧
  result (parse_team_page Site.session_get Site.BeautifulSoup Site.team200 0%nat) = [].
Proof.
  split; [reflexivity|].
  apply parse_team_page_no_markup. left. reflexivity.
Defined.

(** The run for player 9, whose page is not found, ends with the message of
    the empty outcome, as the run for player 10 does, whose page has no
    captain link; both give no result. *)
Lemma failed_profile_fetch_reported_as_no_teams :
  fetch_fails Site.session_get (profile_url "9") 0%nat = true ∧
  fetch_fails Site.session_get (profile_url "10") 0%nat = false ∧
  trace (Site.analyze "9") =
    [ Print "Analyzing captain with ID: 9";
      Print "Fetching: https://leagues.ustanorcal.com/playermatches.asp?id=9";
      Request "https://leagues.ustanorcal.com/playermatches.asp?id=9";
      Print "Error fetching https://leagues.ustanorcal.com/playermatches.asp?id=9: 404 Client Error: Not Found for url: https://leagues.ustanorcal.com/playermatches.asp?id=9";
      Print "No captain teams found!" ] ∧
  last (trace (Site.analyze "9")) = last (trace (Site.analyze "10")) ∧
  result (Site.analyze "9") = result (Site.analyze "10").
Proof. repeat split; vm_compute; reflexivity. Qed.

Lemma analyze_captain_profile_fetch_fails_witness :
  Site.analyze "9" =
    (None,
     [ Print "Analyzing captain with ID: 9";
       Print ("Fetching: " +:+ profile_url "9");
       Request (profile_url "9");
       Print ("Error fetching " +:+ profile_url "9" +:+ ": "
              +:+ "404 Client Error: Not Found for url: " +:+ profile_url "9");
       Print "No captain teams found!" ], 1%nat).
Proof.
  apply (analyze_captain_profile_fetch_fails
           Site.session_get Site.BeautifulSoup Site.urljoin "9" 0%nat).
  reflexivity.
Defined.

(** The page of player 10 has one team link, without the marker: the run
    ends after the message, with no result (not a result with no team and
    no appearance) and without a report. *)
Lemma no_captain_links_no_result :
  (get_text <$> find_all_a_href "teaminfo.asp?id=" Site.profile10) = ["Team Delta"] ∧
  Py.contains "Captain" "Team Delta" = false ∧
  result (Site.analyze "10") = None ∧
  trace (Site.analyze "10") =
    [ Print "Analyzing captain with ID: 10";
      Print "Fetching: https://leagues.ustanorcal.com/playermatches.asp?id=10";
      Request "https://leagues.ustanorcal.com/playermatches.asp?id=10";
      Sleep 1;
      Print "No captain teams found!" ].
Proof. repeat split; vm_compute; reflexivity. Qed.

Lemma analyze_captain_no_captain_links_witness :
  Site.analyze "10" =
    (None,
     [ Print "Analyzing captain with ID: 10";
       Print ("Fetching: " +:+ profile_url "10");
       Request (profile_url "10");
       Sleep 1;
       Print "No captain teams found!" ], 1%nat).
Proof.
  apply (analyze_captain_no_captain_links
           Site.session_get Site.BeautifulSoup Site.urljoin "10" 0%nat Site.profile10_html).
  - reflexivity.
  - intros link Hlink. change (Site.BeautifulSoup Site.profile10_html)
      with Site.profile10 in Hlink.
    assert (Hlinks : find_all_a_href "teaminfo.asp?id=" Site.profile10 =
                     [Site.a "teaminfo.asp?id=400" "Team Delta"])
      by (vm_compute; reflexivity).
    rewrite Hlinks in Hlink. apply list_elem_of_singleton in Hlink as ->.
    reflexivity.
Defined.

Lemma parse_player_page_two_captain_links_witness :
  team_id <$>
    (result (parse_player_page Site.session_get Site.BeautifulSoup Site.urljoin
               "8" 0%nat)).1 = ["100"; "200"].
Proof.
  apply (parse_player_page_two_captain_links
           Site.session_get Site.BeautifulSoup Site.urljoin "8" 0%nat
           Site.profile8_html 1%nat
           (Site.a "teaminfo.asp?id=100" "Team Alpha - Captain")
           (Site.a "teaminfo.asp?id=200" "Team Beta - Co-Captain"));
    first [ reflexivity | intros [=] | vm_compute; reflexivity ].
Defined.

Lemma parse_team_page_deduplicates_witness :
  length (filter (λ p, id_and_name p = ("55", "Jane Doe"))
            (result (parse_team_page Site.session_get Site.BeautifulSoup
                       Site.team100 0%nat))) = 1%nat.
Proof.
  apply (parse_team_page_deduplicates
           Site.session_get Site.BeautifulSoup Site.team100 0%nat
           Site.roster100_html 1%nat 0%nat 1%nat
           (Site.a "playermatches.asp?id=55" "Jane Doe")
           (Site.a "playermatches.asp?id=55" "Jane Doe"));
    first [ reflexivity | intros [=] | vm_compute; reflexivity ].
Defined.

Lemma analyze_captain_one_roster_fails_witness :
  Print "Teams analyzed: 3" ∈ trace (Site.analyze "7") ∧
  Print "Total player appearances: 4" ∈ trace (Site.analyze "7") ∧
  result (parse_team_page Site.session_get Site.BeautifulSoup Site.team200 2%nat) = [].
Proof.
  destruct (analyze_captain_one_roster_fails
              Site.session_get Site.BeautifulSoup Site.urljoin "7" 0%nat
              Site.team100 Site.team200 Site.team300 (Some "Smith, John"))
    as (Hrun & Hteams & Htotal & _ & H2 & _); [vm_compute; reflexivity|].
  destruct H2 as [Hempty _]; [vm_compute; reflexivity..|].
  unfold Site.analyze. rewrite Hrun. unfold trace at 1 3. cbn [fst snd].
  split_and!.
  - apply elem_of_cons. right. apply elem_of_app. right.
    apply elem_of_cons. right. do 3 (apply elem_of_app; right). exact Hteams.
  - apply elem_of_cons. right. apply elem_of_app. right.
    apply elem_of_cons. right. do 3 (apply elem_of_app; right). exact Htotal.
  - exact Hempty.
Defined.

Lemma parse_team_page_person_refs_witness :
  Py.strip "Bob Smith" ≠ "" ∧ (digit_string "unknown" ∨ "unknown" = "unknown").
Proof.
  apply (parse_team_page_person_refs
           Site.session_get Site.BeautifulSoup Site.team100 0%nat
           (mkPlayer "unknown" "Bob Smith" "Team Alpha - Captain")).
  apply (bool_decide_unpack _). vm_compute. exact I.
Defined.

(** ** Further properties: the name heuristic *)

Section heuristic.
Implicit Types text s : string.

Lemma has_skip_keyword_false text :
  has_skip_keyword text = false ↔ keyword_free text.
Proof.
  unfold keyword_free. split.
  - intros H keyword Hin Hocc.
    by rewrite (has_skip_keyword_occurs keyword text) in H.
  - intros H. apply not_true_is_false. intros Hk.
    apply existsb_exists in Hk as (keyword & Hin & Hc).
    apply (H keyword); [by apply list_elem_of_In | by apply contains_lower_iff].
Qed.

Lemma split_go_some cur s : (1 ≤ length (Py.split_go (Some cur) s))%nat.
Proof.
  revert cur. induction s as [|c s IH]; intros cur; simpl; [lia|].
  destruct (Py.isspace c); [simpl; lia | apply IH].
Qed.

(** [text.split()] has a word exactly when [text] has a character that is
    not white space. *)
Lemma split_has_word s : (1 <=? length (Py.split s))%nat = true ↔ has_word s.
Proof.
  unfold Py.split, has_word. induction s as [|c s IH]; simpl; [done|].
  destruct (Py.isspace c); simpl; [done|].
  split; [done|]. intros _.
  pose proof (split_go_some (String c "") s) as Hlen.
  clear IH. revert Hlen.
  destruct (length (Py.split_go (Some (String c "")) s)); [lia|done].
Qed.

Lemma name_char_not_number_char c :
  Py.name_char c = true → Py.isspace c = false → Py.number_char c = false.
Proof.
  destruct c as [[] [] [] [] [] [] [] []]; vm_compute; congruence.
Qed.

(** A text of name characters with a word is not a text of digits, white
    space, hyphens and underscores. *)
Lemma name_shape_not_numbers s :
  Py.forallb Py.name_char s = true → has_word s → Py.match_numbers_only s = false.
Proof.
  unfold has_word, Py.match_numbers_only. intros Hall Hw.
  apply andb_false_iff. right.
  induction s as [|c s IH]; simpl in *; [done|].
  apply andb_true_iff in Hall as [Hc Hs].
  destruct (Py.isspace c) eqn:Hsp; simpl in Hw.
  - rewrite (IH Hs Hw). apply andb_false_r.
  - by rewrite (name_char_not_number_char c Hc Hsp).
Qed.

(** X1: what the heuristic accepts. *)
Theorem looks_like_player_name_iff text :
  looks_like_player_name text = true ↔
    (3 ≤ Py.len text)%nat ∧
    keyword_free text ∧
    ¬ (Py.isupper text = true ∧ (3 < Py.len text)%nat) ∧
    Py.forallb Py.name_char text = true ∧
    has_word text ∧
    Py.lower text ∉ common_words.
Proof.
  unfold looks_like_player_name. rewrite <-has_skip_keyword_false.
  destruct (Py.len text <? 3)%nat eqn:Hlen.
  { apply Nat.ltb_lt in Hlen. split; [done|]. intros [? _]. lia. }
  apply Nat.ltb_ge in Hlen.
  destruct (has_skip_keyword text).
  { split; [done|]. by intros (_ & ? & _). }
  destruct (Py.isupper text && (3 <? Py.len text)%nat) eqn:Hup.
  { apply andb_true_iff in Hup as [Hu Hl]. apply Nat.ltb_lt in Hl.
    split; [done|]. intros (_ & _ & Hn & _). by destruct Hn. }
  assert (Hnotup : ¬ (Py.isupper text = true ∧ (3 < Py.len text)%nat)).
  { intros [Hu Hl]. apply Nat.ltb_lt in Hl. by rewrite Hu, Hl in Hup. }
  destruct (Py.forallb Py.name_char text) eqn:Hshape; last first.
  { unfold Py.match_name_shape. rewrite Hshape, andb_false_r. simpl.
    destruct (Py.match_numbers_only text); (split; [done|]);
      by intros (_ & _ & _ & ? & _). }
  destruct (1 <=? length (Py.split text))%nat eqn:Hsplit; last first.
  { rewrite andb_false_r.
    destruct (Py.match_numbers_only text); (split; [done|]);
      intros (_ & _ & _ & _ & Hw%split_has_word & _); congruence. }
  assert (Hw : has_word text) by (by apply split_has_word).
  rewrite (name_shape_not_numbers text Hshape Hw).
  unfold Py.match_name_shape. rewrite Hshape.
  assert (Hne : text ≠ "") by (intros ->; simpl in Hlen; lia).
  rewrite bool_decide_eq_false_2 by done. simpl.
  case_bool_decide as Hcommon.
  - split; [done|]. by intros (_ & _ & _ & _ & _ & ?).
  - done.
Qed.

End heuristic.

(** ** Further properties: the players of a team page *)

Section roster_origin.
Implicit Types st : list Player * gset string.
Implicit Types players : list Player.
Implicit Types soup : node.

Lemma foldl_bind {A B C} (f : A → C → A) (g : B → list C) (l : list B) (a : A) :
  foldl f a (l ≫= g) = foldl (λ a x, foldl f a (g x)) a l.
Proof.
  revert a. induction l as [|x l IH]; intros a; [done|].
  by rewrite bind_cons, foldl_app, IH.
Qed.

Lemma foldl_ext {A B} (f g : A → B → A) (l : list B) (a : A) :
  (∀ a x, f a x = g a x) → foldl f a l = foldl g a l.
Proof.
  intros Hfg. revert a. induction l as [|x l IH]; intros a; [done|].
  simpl. by rewrite Hfg, IH.
Qed.

(** The three nested loops are one loop over the cells. *)
Lemma cells_pass_flat team_info soup st :
  cells_pass team_info soup st = foldl (cell_step team_info) st (table_cells soup).
Proof.
  unfold cells_pass, table_cells. rewrite foldl_bind.
  apply foldl_ext. intros st1 table. by rewrite foldl_bind.
Qed.

Lemma digit_string_not_unknown : ¬ digit_string "unknown".
Proof. by intros [_ H]. Qed.

(** Every player the first pass collects comes from a link. *)
Lemma links_fold_from_link team_info soup (links : list node) st :
  (∀ link, link ∈ links → link ∈ find_all_a_href "playermatches.asp?id=" soup) →
  Forall (λ p, player_team p = team_name team_info ∧ from_link soup p) st.1 →
  Forall (λ p, player_team p = team_name team_info ∧ from_link soup p)
    (foldl (player_link_step team_info) st links).1.
Proof.
  revert st. induction links as [|link links IH]; intros st Hin Hst; [done|].
  simpl. apply IH; [intros l Hl; apply Hin; by right|].
  destruct st as [players seen]. unfold player_link_step.
  destruct (negb _ && _) eqn:Htext; [|done].
  destruct (get "href" link) as [href|] eqn:Hhref; [|done].
  destruct (Py.search_digits_after "id=" href) as [pid|] eqn:Hid; [|done].
  destruct (bool_decide (_ ∈ seen)); [done|]. simpl in *.
  apply Forall_app. split; [done|]. apply Forall_singleton. split; [done|].
  apply andb_true_iff in Htext as [_ Hlen]. apply Nat.ltb_lt in Hlen.
  split; [done|]. exists link, href. split_and!; [|done..]. apply Hin. by left.
Qed.

Lemma links_pass_from_link team_info soup :
  Forall (λ p, player_team p = team_name team_info ∧ from_link soup p)
    (links_pass team_info soup).1.
Proof. unfold links_pass. by apply links_fold_from_link. Qed.

(** The second pass appends players read from cells, each with a name that
    no player collected before has. *)
Lemma cells_fold_appends team_info soup (cells : list node) st :
  (∀ cell, cell ∈ cells → cell ∈ table_cells soup) →
  ∃ added,
    (foldl (cell_step team_info) st cells).1 = st.1 ++ added ∧
    Forall (λ p, player_team p = team_name team_info ∧ from_cell soup p) added ∧
    NoDup (player_name <$> added) ∧
    (∀ p, p ∈ added → player_name p ∉ player_name <$> st.1).
Proof.
  revert st. induction cells as [|cell cells IH]; intros st Hin.
  { exists []. split_and!; [by rewrite app_nil_r|done|constructor|].
    by intros p ?%elem_of_nil. }
  simpl.
  destruct (IH (cell_step team_info st cell)) as (added & Heq & Hfrom & Hnodup & Hnew);
    [intros c Hc; apply Hin; by right|].
  rewrite Heq. clear Heq IH.
  destruct st as [players seen]. unfold cell_step in *.
  destruct (negb _ && _) eqn:Htext; [|by exists added].
  destruct (negb (List.existsb _ _)) eqn:Hname; [|by exists added].
  destruct (bool_decide (_ ∈ seen)); [by exists added|]. simpl in *.
  exists (mkPlayer "unknown" (get_text cell) (team_name team_info) :: added).
  assert (Hfresh : get_text cell ∉ player_name <$> players).
  { intros (q & Hq & Hqin)%list_elem_of_fmap.
    apply negb_true_iff, not_true_iff_false in Hname. apply Hname.
    apply existsb_exists. exists q. split; [by apply list_elem_of_In|].
    by apply bool_decide_eq_true. }
  split_and!.
  - by rewrite <-app_assoc.
  - constructor; [|done]. split; [done|].
    apply andb_true_iff in Htext as [_ Hlooks].
    split_and!; [done|done|]. exists cell. split; [apply Hin; by left|done].
  - rewrite fmap_cons. simpl. constructor; [|done].
    intros (q & Hq & Hqin)%list_elem_of_fmap.
    apply (Hnew q Hqin). rewrite fmap_app, elem_of_app. right. rewrite <-Hq. by left.
  - intros p [->|Hp]%elem_of_cons; [done|].
    intros Hp'. apply (Hnew p Hp). rewrite fmap_app, elem_of_app. by left.
Qed.

(** The players of a team page: those of the links, then those of the
    cells. *)
Lemma extract_players_parts team_info soup :
  ∃ added,
    extract_players team_info soup = (links_pass team_info soup).1 ++ added ∧
    Forall (λ p, player_team p = team_name team_info ∧ from_link soup p)
      (links_pass team_info soup).1 ∧
    Forall (λ p, player_team p = team_name team_info ∧ from_cell soup p) added ∧
    NoDup (player_name <$> added) ∧
    (∀ p, p ∈ added → player_name p ∉ player_name <$> (links_pass team_info soup).1).
Proof.
  unfold extract_players. rewrite cells_pass_flat.
  destruct (cells_fold_appends team_info soup (table_cells soup)
              (links_pass team_info soup)) as (added & Heq & Hfrom & Hnodup & Hnew);
    [done|].
  exists added. split_and!; [done| |done..]. apply links_pass_from_link.
Qed.

End roster_origin.

Lemma accepted_length text :
  looks_like_player_name text = true → (3 ≤ Py.len text)%nat.
Proof.
  unfold looks_like_player_name.
  destruct (Py.len text <? 3)%nat eqn:Hlen; [done|]. intros _.
  by apply Nat.ltb_ge in Hlen.
Qed.

Lemma accepted_no_letter_a text :
  looks_like_player_name text = true → ¬ has_letter_a text.
Proof.
  intros Hacc (pre & c & post & -> & Hc).
  rewrite has_skip_keyword_rejects in Hacc; [done|].
  apply has_skip_keyword_occurs with "a".
  - apply (bool_decide_unpack _). vm_compute. exact I.
  - exists pre, (String c ""), post. split; [done|]. by destruct Hc as [-> | ->].
Qed.

(** A cell that the heuristic accepts has its text among the names after
    its step: a player has the name already, or one is added for it. *)
Lemma cell_step_has team_info (st : list Player * gset string) (cell : node) :
  roster_invariant st →
  looks_like_player_name (get_text cell) = true →
  get_text cell ∈ player_name <$> (cell_step team_info st cell).1.
Proof.
  destruct st as [players seen]. intros (Hok & Hseen & _) Hacc.
  assert (Hne : get_text cell ≠ "").
  { intros Hempty. apply accepted_length in Hacc. rewrite Hempty in Hacc.
    simpl in Hacc. lia. }
  unfold cell_step. rewrite Hacc, bool_decide_eq_false_2 by done. simpl in *.
  destruct (List.existsb _ players) eqn:Hname; simpl.
  { apply existsb_exists in Hname as (q & Hq & Hname).
    apply bool_decide_eq_true in Hname. apply list_elem_of_fmap.
    exists q. split; [done|]. by apply list_elem_of_In. }
  destruct (bool_decide (_ ∈ seen)) eqn:Hin; simpl.
  - apply bool_decide_eq_true, Hseen, list_elem_of_fmap in Hin as (q & Hkey & Hq).
    rewrite Forall_forall in Hok. unfold player_key in Hkey.
    change ("unknown_" +:+ get_text cell) with ("unknown" +:+ "_" +:+ get_text cell)
      in Hkey.
    apply key_inj in Hkey as [_ Hn]; [|done|by apply person_ref_no_underscore, Hok].
    apply list_elem_of_fmap. by exists q.
  - rewrite fmap_app. apply elem_of_app. right. simpl. left.
Qed.

Lemma cells_fold_has team_info (cells : list node) (st : list Player * gset string)
    (cell : node) :
  roster_invariant st → cell ∈ cells →
  looks_like_player_name (get_text cell) = true →
  get_text cell ∈ player_name <$> (foldl (cell_step team_info) st cells).1.
Proof.
  intros Hst Hin Hacc. revert st Hst.
  induction cells as [|x cells IH]; intros st Hst; [by apply elem_of_nil in Hin|].
  simpl. apply elem_of_cons in Hin as [<-|Hin].
  - apply (cell_step_has team_info st) in Hacc; [|done].
    apply list_elem_of_fmap in Hacc as (p & Hname & Hp).
    apply list_elem_of_fmap. exists p. split; [done|].
    apply foldl_keeps; [|done]. intros; by apply cell_step_keeps.
  - apply IH; [done|]. by apply cell_step_invariant.
Qed.

Section roster_runs.
Context {World : Type}.
Variable session_get : string → World → Response * World.
Variable BeautifulSoup : string → node.

Implicit Types w : World.
Implicit Types team_info : Team.

(** X2: the players of a team page are those read from the links to player
    pages, followed by those read from table cells, and none is left out:
    every link with a text of more than two characters and digits in its
    address has its player among the first, and every cell that the
    heuristic accepts has its text among the names. *)
Theorem parse_team_page_parts team_info w html w' :
  session_get (team_url team_info) w = (ResponseText html, w') →
  html ≠ "" →
  let soup := BeautifulSoup html in
  ∃ linked added,
    result (parse_team_page session_get BeautifulSoup team_info w) = linked ++ added ∧
    Forall (from_link soup) linked ∧
    Forall (from_cell soup) added ∧
    (∀ link href pid,
       link ∈ find_all_a_href "playermatches.asp?id=" soup →
       (2 < Py.len (get_text link))%nat →
       get "href" link = Some href →
       Py.search_digits_after "id=" href = Some pid →
       (pid, get_text link) ∈ id_and_name <$> linked) ∧
    (∀ cell,
       cell ∈ table_cells soup →
       looks_like_player_name (get_text cell) = true →
       get_text cell ∈ player_name <$> (linked ++ added)).
Proof.
  intros Hget Hhtml soup. rewrite parse_team_page_result, Hget.
  rewrite bool_decide_eq_false_2 by done. fold soup.
  destruct (extract_players_parts team_info soup)
    as (added & Heq & Hlinked & Hadded & _).
  exists (links_pass team_info soup).1, added.
  split_and!; [done|..].
  - eapply Forall_impl; eauto. by intros p [_ ?].
  - eapply Forall_impl; eauto. by intros p [_ ?].
  - intros link href pid Hlink Hlen Hhref Hid.
    destruct (links_fold_has team_info _ ([], ∅) link href pid
                roster_invariant_empty Hlink) as (p & Hp & Hpair); [|done..|].
    { intros Hempty. rewrite Hempty in Hlen. simpl in Hlen. lia. }
    apply list_elem_of_fmap. by exists p.
  - intros cell Hcell Hacc. rewrite <-Heq. unfold extract_players.
    rewrite cells_pass_flat. apply cells_fold_has; [|done..].
    apply links_pass_invariant.
Qed.

(** X3: every player carries the name of the team whose page was read. *)
Theorem parse_team_page_team team_info w (p : Player) :
  p ∈ result (parse_team_page session_get BeautifulSoup team_info w) →
  player_team p = team_name team_info.
Proof.
  rewrite parse_team_page_result.
  destruct (session_get (team_url team_info) w) as [[html|e] w'];
    [|by intros ?%elem_of_nil].
  destruct (bool_decide (html = "")); [by intros ?%elem_of_nil|].
  destruct (extract_players_parts team_info (BeautifulSoup html))
    as (added & -> & Hlinked & Hadded & _).
  rewrite Forall_forall in Hlinked, Hadded.
  intros [Hp|Hp]%elem_of_app; [by apply Hlinked | by apply Hadded].
Qed.

(** X4: on a page without a link to a player page, every player comes from
    a cell and has the identifier "unknown". *)
Theorem parse_team_page_no_links team_info w html w' (p : Player) :
  session_get (team_url team_info) w = (ResponseText html, w') →
  find_all_a_href "playermatches.asp?id=" (BeautifulSoup html) = [] →
  p ∈ result (parse_team_page session_get BeautifulSoup team_info w) →
  from_cell (BeautifulSoup html) p.
Proof.
  intros Hget Hlinks. rewrite parse_team_page_result, Hget.
  destruct (bool_decide (html = "")); [by intros ?%elem_of_nil|].
  destruct (extract_players_parts team_info (BeautifulSoup html))
    as (added & -> & _ & Hadded & _).
  unfold links_pass. rewrite Hlinks. simpl.
  rewrite Forall_forall in Hadded. intros Hp. by apply Hadded.
Qed.

(** X5: every link to a player page with a text of more than two characters
    gives exactly one player with the digits of its address and its text. *)
Theorem parse_team_page_link_once team_info w html w' (link : node) href pid :
  session_get (team_url team_info) w = (ResponseText html, w') →
  html ≠ "" →
  link ∈ find_all_a_href "playermatches.asp?id=" (BeautifulSoup html) →
  (2 < Py.len (get_text link))%nat →
  get "href" link = Some href →
  Py.search_digits_after "id=" href = Some pid →
  length (filter (λ p, id_and_name p = (pid, get_text link))
            (result (parse_team_page session_get BeautifulSoup team_info w))) = 1%nat.
Proof.
  intros Hget Hhtml Hlink Hlen Hhref Hid. rewrite parse_team_page_result, Hget.
  rewrite bool_decide_eq_false_2 by done.
  destruct (extract_players_invariant team_info (BeautifulSoup html)) as [_ Hnodup].
  destruct (links_fold_has team_info _ ([], ∅) link href pid
              roster_invariant_empty Hlink) as (p & Hp & Hpair); [|done..|].
  { intros Hempty. rewrite Hempty in Hlen. simpl in Hlen. lia. }
  rewrite <-Hpair. apply filter_image_one; [done|]. by apply cells_pass_keeps.
Qed.

(** X6: a player without identifier has a name that no other player of the
    page has. *)
Theorem parse_team_page_unknown_name_once team_info w (p : Player) :
  p ∈ result (parse_team_page session_get BeautifulSoup team_info w) →
  player_id p = "unknown" →
  length (filter (λ q, player_name q = player_name p)
            (result (parse_team_page session_get BeautifulSoup team_info w))) = 1%nat.
Proof.
  rewrite parse_team_page_result.
  destruct (session_get (team_url team_info) w) as [[html|e] w'];
    [|by intros ?%elem_of_nil].
  destruct (bool_decide (html = "")); [by intros ?%elem_of_nil|].
  destruct (extract_players_parts team_info (BeautifulSoup html))
    as (added & -> & Hlinked & _ & Hnodup & Hnew).
  rewrite Forall_forall in Hlinked.
  intros [Hp|Hp]%elem_of_app Hid.
  - destruct (Hlinked p Hp) as (_ & _ & link & href & _ & _ & _ & Hsearch).
    apply search_digits_after_digits in Hsearch. rewrite Hid in Hsearch.
    by destruct digit_string_not_unknown.
  - rewrite filter_app, length_app.
    rewrite (filter_image_none player_name) by by apply Hnew.
    by apply (filter_image_one player_name).
Qed.

(** X7: every name has at least three characters, and the name of a player
    without identifier has no letter a, small or capital. *)
Theorem parse_team_page_name_shape team_info w (p : Player) :
  p ∈ result (parse_team_page session_get BeautifulSoup team_info w) →
  (3 ≤ Py.len (player_name p))%nat ∧
  (player_id p = "unknown" → ¬ has_letter_a (player_name p)).
Proof.
  rewrite parse_team_page_result.
  destruct (session_get (team_url team_info) w) as [[html|e] w'];
    [|by intros ?%elem_of_nil].
  destruct (bool_decide (html = "")); [by intros ?%elem_of_nil|].
  destruct (extract_players_parts team_info (BeautifulSoup html))
    as (added & -> & Hlinked & Hadded & _).
  rewrite Forall_forall in Hlinked, Hadded.
  intros [Hp|Hp]%elem_of_app.
  - destruct (Hlinked p Hp) as (_ & Hlen & link & href & _ & _ & _ & Hsearch).
    split; [lia|]. intros Hid.
    apply search_digits_after_digits in Hsearch. rewrite Hid in Hsearch.
    by destruct digit_string_not_unknown.
  - destruct (Hadded p Hp) as (_ & _ & Hacc & _).
    split; [by apply accepted_length | intros _; by apply accepted_no_letter_a].
Qed.

End roster_runs.

(** ** Further properties: the profile page *)

Section profile_runs.
Context {World : Type}.
Variable session_get : string → World → Response * World.
Variable BeautifulSoup : string → node.
Variable urljoin : string → string → string.

Implicit Types w : World.
Implicit Types links : list node.

Lemma team_link_step_run (link : node) captain_teams w :
  team_link_step urljoin link captain_teams w =
    (captain_teams ++ option_list (team_of_link urljoin link),
     found_line <$> option_list (team_of_link urljoin link), w).
Proof.
  unfold team_link_step, team_of_link.
  destruct (Py.contains "Captain" (get_text link));
    [|unfold ret; simpl; by rewrite app_nil_r].
  destruct (get "href" link) as [href|];
    [|unfold ret; simpl; by rewrite app_nil_r].
  simpl. destruct (Py.search_digits_after "id=" href) as [team_id|];
    [|unfold ret; simpl; by rewrite app_nil_r].
  reflexivity.
Qed.

(** The loop over the team links, as a whole: it appends the teams of the
    links, prints a line for each and makes no request. *)
Lemma for_each_team_links links captain_teams w :
  for_each links (team_link_step urljoin) captain_teams w =
    (captain_teams ++ omap (team_of_link urljoin) links,
     found_line <$> omap (team_of_link urljoin) links, w).
Proof.
  revert captain_teams. induction links as [|link links IH]; intros captain_teams.
  { simpl. unfold ret. by rewrite app_nil_r. }
  cbn [for_each]. unfold bind. rewrite team_link_step_run, IH.
  cbn [omap list_omap]. destruct (team_of_link urljoin link) as [team|]; simpl.
  - by rewrite <-app_assoc.
  - by rewrite app_nil_r.
Qed.

(** X8: the teams of a profile page are the teams of its team links, in the
    order of the page and with repetitions; a line is printed for each and
    the profile page is the only request. *)
Theorem parse_player_page_teams (player_id : string) w html w' :
  session_get (profile_url player_id) w = (ResponseText html, w') →
  html ≠ "" →
  let captain_teams :=
    omap (team_of_link urljoin)
      (find_all_a_href "teaminfo.asp?id=" (BeautifulSoup html)) in
  parse_player_page session_get BeautifulSoup urljoin player_id w =
    ((captain_teams, find_player_name (BeautifulSoup html)),
     [Print ("Fetching: " +:+ profile_url player_id);
      Request (profile_url player_id); Sleep 1] ++ (found_line <$> captain_teams),
     w').
Proof.
  intros Hget Hhtml captain_teams.
  rewrite parse_player_page_run. cbv zeta. rewrite Hget.
  rewrite bool_decide_eq_false_2 by done.
  by rewrite for_each_team_links.
Qed.

(** What [parse_player_page] returns, by the outcome of the request. *)
Lemma parse_player_page_result (player_id : string) w :
  result (parse_player_page session_get BeautifulSoup urljoin player_id w) =
    match session_get (profile_url player_id) w with
    | (ResponseText html, _) =>
        if bool_decide (html = "") then ([], None)
        else (omap (team_of_link urljoin)
                (find_all_a_href "teaminfo.asp?id=" (BeautifulSoup html)),
              find_player_name (BeautifulSoup html))
    | (RequestException _, _) => ([], None)
    end.
Proof.
  rewrite parse_player_page_run. cbv zeta.
  destruct (session_get (profile_url player_id) w) as [[html|e] w']; [|done].
  destruct (bool_decide (html = "")); [done|].
  by rewrite for_each_team_links.
Qed.

(** X9: every team returned has a non-empty identifier of digits and a name
    with the marker "Captain". *)
Theorem parse_player_page_team_refs (player_id : string) w (team : Team) :
  team ∈ (result (parse_player_page session_get BeautifulSoup urljoin player_id w)).1 →
  digit_string (team_id team) ∧
  ∃ pre post, team_name team = pre +:+ "Captain" +:+ post.
Proof.
  rewrite parse_player_page_result.
  destruct (session_get (profile_url player_id) w) as [[html|e] w'];
    [|by intros ?%elem_of_nil].
  destruct (bool_decide (html = "")); [by intros ?%elem_of_nil|].
  simpl. intros (link & Hlink & Hteam)%list_elem_of_omap.
  unfold team_of_link in Hteam.
  destruct (Py.contains "Captain" (get_text link)) eqn:Hcap; [|done].
  destruct (get "href" link) as [href|]; [|done]. simpl in Hteam.
  destruct (Py.search_digits_after "id=" href) as [tid|] eqn:Hid; [|done].
  injection Hteam as <-. simpl. split.
  - by apply search_digits_after_digits in Hid.
  - by apply contains_split.
Qed.

(** The two tests for a captain name ask for the same shape. *)
Lemma heading_is_name_shape text :
  heading_is_name text = true →
  (3 < Py.len text)%nat ∧ Py.forallb Py.name_char text = true ∧
  (2 ≤ length (Py.split text))%nat ∧ Py.any_in site_words (Py.lower text) = false.
Proof.
  unfold heading_is_name, Py.match_name_shape. fold site_words. intros H.
  apply andb_true_iff in H as [H Hshape].
  apply andb_true_iff in Hshape as [Hshape Hsplit].
  apply andb_true_iff in Hshape as [_ Hall].
  apply andb_true_iff in H as [H Hany].
  apply andb_true_iff in H as [_ Hlen].
  split_and!; [by apply Nat.ltb_lt | done | by apply Nat.leb_le | by apply negb_true_iff].
Qed.

Lemma any_in_site_words text :
  Py.any_in ["usta"; "northern"; "california"; "leagues"; "matches";
             "rating"; "expiration"] text = false →
  Py.any_in site_words text = false.
Proof.
  unfold Py.any_in, site_words. simpl. intros H.
  repeat (apply orb_false_iff in H as [? H]).
  repeat (apply orb_false_iff; split); done.
Qed.

Lemma cell_is_name_shape text :
  cell_is_name text = true →
  (3 < Py.len text)%nat ∧ Py.forallb Py.name_char text = true ∧
  (2 ≤ length (Py.split text))%nat ∧ Py.any_in site_words (Py.lower text) = false.
Proof.
  unfold cell_is_name, Py.match_name_shape. intros H.
  apply andb_true_iff in H as [H Hany].
  apply andb_true_iff in H as [H Hsplit].
  apply andb_true_iff in H as [H Hshape].
  apply andb_true_iff in Hshape as [_ Hall].
  apply andb_true_iff in H as [_ Hlen].
  split_and!; [by apply Nat.ltb_lt | done | by apply Nat.leb_le | ].
  by apply any_in_site_words, negb_true_iff.
Qed.

Lemma find_player_name_shape (soup : node) name :
  find_player_name soup = Some name →
  (3 < Py.len name)%nat ∧ Py.forallb Py.name_char name = true ∧
  (2 ≤ length (Py.split name))%nat ∧ Py.any_in site_words (Py.lower name) = false.
Proof.
  unfold find_player_name.
  destruct (List.find heading_is_name _) as [heading|] eqn:Hh.
  - apply find_some in Hh as [_ Hh].
    assert (Hshape := heading_is_name_shape heading Hh).
    unfold falsy. case_bool_decide as Hempty.
    { subst heading. by destruct Hshape as [? _]. }
    by intros [= <-].
  - simpl. destruct (find_all ["table"] soup) as [|first_table tables]; [done|].
    destruct (List.find cell_is_name _) as [cell|] eqn:Hc; [|done].
    apply find_some in Hc as [_ Hc]. intros [= <-]. by apply cell_is_name_shape.
Qed.

(** X10: a captain name, when one is found, has more than three characters,
    all of them letters, white space, commas or periods, at least two words,
    and none of the words of the site. *)
Theorem parse_player_page_name_shape (player_id : string) w name :
  (result (parse_player_page session_get BeautifulSoup urljoin player_id w)).2 = Some name →
  (3 < Py.len name)%nat ∧ Py.forallb Py.name_char name = true ∧
  (2 ≤ length (Py.split name))%nat ∧ Py.any_in site_words (Py.lower name) = false.
Proof.
  rewrite parse_player_page_result.
  destruct (session_get (profile_url player_id) w) as [[html|e] w']; [|done].
  destruct (bool_decide (html = "")); [done|].
  simpl. apply find_player_name_shape.
Qed.

End profile_runs.

(** ** Further properties: the frequency table *)

Section table.
Local Open Scope nat_scope.
Implicit Types counts : gmap string nat.
Implicit Types entries : list Player.

Lemma foldl_increment_dom entries counts :
  dom (foldl increment counts entries) =
  dom counts ∪ list_to_set (player_name <$> entries).
Proof.
  revert counts. induction entries as [|p entries IH]; intros counts; simpl.
  - by rewrite (right_id_L ∅ (∪)).
  - rewrite IH. unfold increment. rewrite dom_insert_L.
    by rewrite (comm_L (∪) {[_]} (dom counts)), (assoc_L (∪)).
Qed.

Lemma length_remove_dups_le (l : list string) : length (remove_dups l) ≤ length l.
Proof.
  induction l as [|x l IH]; simpl; [done|]. case_decide; simpl; lia.
Qed.

(** X11: the table has one key for each name that occurs, so the number of
    unique players is the number of distinct names, at most the number of
    entries. *)
Theorem count_players_size entries :
  size (count_players entries) = length (remove_dups (player_name <$> entries)) ∧
  size (count_players entries) ≤ length entries.
Proof.
  assert (Hsize : size (count_players entries) =
                  length (remove_dups (player_name <$> entries))).
  { rewrite <-size_dom. unfold count_players.
    rewrite foldl_increment_dom, dom_empty_L, (left_id_L ∅ (∪)).
    rewrite <-(size_list_to_set (C := gset string)) by apply NoDup_remove_dups.
    f_equal. apply set_eq. intros x. rewrite !elem_of_list_to_set.
    by rewrite elem_of_remove_dups. }
  split; [done|]. rewrite Hsize.
  etrans; [apply length_remove_dups_le|]. by rewrite length_fmap.
Qed.

(** The count under every key, present or not. *)
Lemma count_players_lookup entries key :
  count_players entries !! key =
    if decide (occurrences key entries = 0) then None
    else Some (occurrences key entries).
Proof.
  unfold occurrences, count_players.
  pose proof (foldl_increment_lookup entries ∅ key) as Hk.
  rewrite lookup_empty in Hk. simpl in Hk.
  destruct (foldl increment ∅ entries !! key) as [n|] eqn:E; simpl in Hk.
  - assert (0 < n) by (eapply (foldl_increment_positive entries ∅); [|done];
      intros k m; by rewrite lookup_empty).
    rewrite decide_False by lia. by rewrite Hk.
  - by rewrite decide_True.
Qed.

(** X12: the table does not depend on the order of the entries. *)
Theorem count_players_permutation entries1 entries2 :
  entries1 ≡ₚ entries2 → count_players entries1 = count_players entries2.
Proof.
  intros Hperm. apply map_eq. intros key. rewrite !count_players_lookup.
  assert (Hocc : occurrences key entries1 = occurrences key entries2)
    by (unfold occurrences; by rewrite Hperm).
  by rewrite Hocc.
Qed.

(** X13: the count of a name over two lists of entries put together is the
    sum of its counts over each. *)
Theorem count_players_app entries1 entries2 key :
  default 0 (count_players (entries1 ++ entries2) !! key) =
  default 0 (count_players entries1 !! key) + default 0 (count_players entries2 !! key).
Proof.
  rewrite !count_players_lookup. unfold occurrences.
  rewrite filter_app, length_app.
  repeat case_decide; simpl; lia.
Qed.

End table.

(** ** Further properties: whole runs *)

Section report_order.
Local Open Scope nat_scope.

Lemma report_order_total : Total report_order.
Proof.
  intros [n1 c1] [n2 c2]. unfold report_order. simpl.
  destruct (lt_eq_lt_dec c1 c2) as [[Hlt|Heq]|Hgt]; [right; by left| |left; by left].
  destruct (total String.le n1 n2); [left|right]; right; done.
Qed.

Lemma report_order_transitive : Transitive report_order.
Proof.
  intros [n1 c1] [n2 c2] [n3 c3]. unfold report_order. simpl.
  intros [H12|[H12 Hn12]] [H23|[H23 Hn23]]; [left; lia..|].
  right. split; [lia|]. by trans n2.
Qed.

Lemma report_order_antisymm : AntiSymm (=) report_order.
Proof.
  intros [n1 c1] [n2 c2]. unfold report_order. simpl.
  intros [H12|[H12 Hn12]] [H21|[H21 Hn21]]; try lia.
  f_equal; [|done]. by apply (anti_symm String.le).
Qed.

(** X14: the lines of the report are the items of the table, sorted by
    count, larger first, then by name; the order in which the table gives
    its items does not matter. *)
Theorem sorted_players_spec (counts : gmap string nat) (items : list (string * nat)) :
  items ≡ₚ map_to_list counts →
  let sorted_players := merge_sort report_order items in
  sorted_players ≡ₚ map_to_list counts ∧
  StronglySorted report_order sorted_players ∧
  sorted_players = merge_sort report_order (map_to_list counts).
Proof.
  intros Hperm sorted_players.
  pose proof (@StronglySorted_merge_sort _ report_order _
                report_order_transitive report_order_total) as Hsorted.
  split_and!.
  - unfold sorted_players. by rewrite merge_sort_Permutation.
  - apply Hsorted.
  - apply (@StronglySorted_unique _ report_order report_order_antisymm);
      [apply Hsorted..|].
    unfold sorted_players. by rewrite !merge_sort_Permutation.
Qed.

End report_order.

Section whole_runs.
Local Open Scope nat_scope.
Context {World : Type}.
Variable session_get : string → World → Response * World.
Variable BeautifulSoup : string → node.
Variable urljoin : string → string → string.

Implicit Types w : World.
Implicit Types t : list event.

Lemma requests_app t1 t2 : requests (t1 ++ t2) = requests t1 ++ requests t2.
Proof. apply omap_app. Qed.

Lemma requests_found_lines (l : list Team) : requests (found_line <$> l) = [].
Proof. by induction l. Qed.

Lemma requests_get_page url w : requests (trace (get_page session_get url w)) = [url].
Proof.
  rewrite get_page_run. by destruct (session_get url w) as [[text|e] w'].
Qed.

Lemma requests_parse_team_page (team_info : Team) w :
  requests (trace (parse_team_page session_get BeautifulSoup team_info w)) =
  [team_url team_info].
Proof.
  unfold parse_team_page. rewrite trace_bind, requests_app, requests_get_page.
  destruct (falsy _); [done|]. by rewrite trace_bind.
Qed.

Lemma requests_roster_loop (captain_teams : list Team) (all_players : list Player) w :
  requests (trace (for_each captain_teams (roster_step session_get BeautifulSoup)
                     all_players w)) =
  team_url <$> captain_teams.
Proof.
  revert all_players w.
  induction captain_teams as [|team captain_teams IH]; intros all_players w; [done|].
  cbn [for_each]. rewrite trace_bind, requests_app, IH.
  unfold roster_step at 1. by rewrite trace_bind, requests_app, requests_parse_team_page.
Qed.

Lemma requests_parse_player_page (player_id : string) w :
  requests (trace (parse_player_page session_get BeautifulSoup urljoin player_id w)) =
  [profile_url player_id].
Proof.
  rewrite parse_player_page_run. cbv zeta.
  destruct (session_get (profile_url player_id) w) as [[html|e] w']; [|done].
  destruct (bool_decide (html = "")); [done|].
  rewrite for_each_team_links. unfold trace. simpl.
  by rewrite requests_found_lines.
Qed.

Lemma requests_report_events (r : Analysis) : requests (report_events r) = [].
Proof.
  unfold report_events. rewrite !requests_app.
  assert (Hl : ∀ l : list (string * nat),
            requests ((λ item, Print (report_line item)) <$> l) = [])
    by (by induction l).
  rewrite Hl. by destruct (falsy (captain_name r)).
Qed.

(** The report ends with the table and the closing line. *)
Lemma report_events_tail (r : Analysis) :
  ∃ header,
    report_events r =
      header ++
      ((λ item, Print (report_line item)) <$>
         merge_sort report_order (map_to_list (player_counts r))) ++
      [Print (newline +:+ Py.repeat_char "=" 60)].
Proof.
  unfold report_events.
  match goal with |- ∃ header, ?a ++ ?b ++ ?c ++ _ = _ => exists (a ++ b ++ c) end.
  by rewrite <-!app_assoc.
Qed.

(** Every player of a team page is a person reference of that team. *)
Lemma parse_team_page_players (team_info : Team) w :
  Forall (λ p, person_ref_ok p ∧ player_team p = team_name team_info)
    (result (parse_team_page session_get BeautifulSoup team_info w)).
Proof.
  rewrite parse_team_page_result.
  destruct (session_get (team_url team_info) w) as [[html|e] w']; [|done].
  destruct (bool_decide (html = "")); [done|].
  destruct (extract_players_invariant team_info (BeautifulSoup html)) as [Hok _].
  destruct (extract_players_parts team_info (BeautifulSoup html))
    as (added & Heq & Hlinked & Hadded & _).
  rewrite Forall_forall in Hok. apply Forall_forall. intros p Hp.
  split; [by apply Hok|]. rewrite Heq in Hp.
  rewrite Forall_forall in Hlinked, Hadded.
  apply elem_of_app in Hp as [Hp|Hp]; [by apply Hlinked | by apply Hadded].
Qed.

Lemma roster_loop_players (captain_teams : list Team) (all_players : list Player)
    (names : list string) w :
  (∀ team, team ∈ captain_teams → team_name team ∈ names) →
  Forall (λ p, person_ref_ok p ∧ player_team p ∈ names) all_players →
  Forall (λ p, person_ref_ok p ∧ player_team p ∈ names)
    (result (for_each captain_teams (roster_step session_get BeautifulSoup)
               all_players w)).
Proof.
  revert all_players w.
  induction captain_teams as [|team captain_teams IH]; intros all_players w Hin Hall;
    [done|].
  rewrite roster_loop_cons. apply IH; [intros t Ht; apply Hin; by right|].
  apply Forall_app. split; [done|].
  eapply Forall_impl; [apply parse_team_page_players|].
  intros p [Hok ->]. split; [done|]. apply Hin. by left.
Qed.

(** X15: a run requests the profile page and then the page of every team
    found, once each and in the order of the teams, whether or not a request
    fails. *)
Theorem analyze_captain_requests (player_id : string) w :
  requests (trace (analyze_captain session_get BeautifulSoup urljoin player_id w)) =
  profile_url player_id ::
    (team_url <$>
       (result (parse_player_page session_get BeautifulSoup urljoin player_id w)).1).
Proof.
  rewrite analyze_captain_run. cbv zeta.
  pose proof (requests_roster_loop
                (result (parse_player_page session_get BeautifulSoup urljoin
                           player_id w)).1 []
                (final (parse_player_page session_get BeautifulSoup urljoin
                          player_id w))) as Hloop.
  set (loop := for_each _ _ _ _) in *.
  destruct (result (parse_player_page _ _ _ _ _)).1 as [|team teams] eqn:Hteams.
  - unfold trace at 1. cbn [fst snd requests omap list_omap].
    fold requests. by rewrite requests_app, requests_parse_player_page.
  - unfold trace at 1. cbn [fst snd requests omap list_omap]. fold requests.
    rewrite requests_app, requests_parse_player_page.
    cbn [app requests omap list_omap]. fold requests.
    rewrite requests_app, Hloop, requests_report_events.
    by rewrite app_nil_r.
Qed.

(** X16: what a run prints and does.  Without a team it prints that none
    was found and stops.  With teams it prints their number, reads the team
    pages and prints the report: the identifier asked for, the name from
    the profile page, the number of teams, of players collected and of
    names, and the table.  The counts of the table add up to the number of
    players printed, and every player collected is a person reference of
    one of the teams. *)
Theorem analyze_captain_result (player_id : string) w :
  let profile := parse_player_page session_get BeautifulSoup urljoin player_id w in
  let loop :=
    for_each (result profile).1 (roster_step session_get BeautifulSoup) []
      (final profile) in
  let r := mkAnalysis player_id (result profile).2 (result profile).1
             (result loop) (count_players (result loop)) in
  analyze_captain session_get BeautifulSoup urljoin player_id w =
    match (result profile).1 with
    | [] =>
        (None,
         Print ("Analyzing captain with ID: " +:+ player_id)
           :: trace profile ++ [Print "No captain teams found!"],
         final profile)
    | _ :: _ =>
        (None,
         Print ("Analyzing captain with ID: " +:+ player_id)
           :: trace profile
           ++ Print ("Found " +:+ Py.str (length (result profile).1) +:+ " captain teams")
           :: trace loop ++ report_events r,
         final loop)
    end ∧
  total_count (player_counts r) = length (all_players r) ∧
  Forall (λ p, person_ref_ok p ∧ player_team p ∈ team_name <$> teams r)
    (all_players r).
Proof.
  intros profile loop r. split_and!.
  - apply analyze_captain_run.
  - unfold r, count_players. cbn [player_counts all_players].
    rewrite foldl_increment_total. unfold total_count.
    by rewrite map_to_list_empty.
  - unfold r. cbn [teams all_players]. apply roster_loop_players; [|done].
    intros t Ht. apply list_elem_of_fmap. by exists t.
Qed.

(** X17: a run that found teams ends its output with a line for each name
    of the table of the players collected, in the order of the report, and
    the closing line. *)
Theorem analyze_captain_report_lines (player_id : string) w :
  let profile := parse_player_page session_get BeautifulSoup urljoin player_id w in
  let loop :=
    for_each (result profile).1 (roster_step session_get BeautifulSoup) []
      (final profile) in
  (result profile).1 ≠ [] →
  ∃ before,
    trace (analyze_captain session_get BeautifulSoup urljoin player_id w) =
      before ++
      ((λ item, Print (report_line item)) <$>
         merge_sort report_order (map_to_list (count_players (result loop)))) ++
      [Print (newline +:+ Py.repeat_char "=" 60)].
Proof.
  intros profile loop Hteams. rewrite analyze_captain_run. cbv zeta.
  fold profile. fold loop. clearbody loop.
  destruct (result profile).1 as [|team teams]; [done|].
  unfold trace at 1. cbn [fst snd].
  match goal with |- context [report_events ?r] =>
    destruct (report_events_tail r) as [header ->] end.
  cbn [player_counts].
  exists (Print ("Analyzing captain with ID: " +:+ player_id)
            :: trace profile
            ++ Print ("Found " +:+ Py.str (length (team :: teams)) +:+ " captain teams")
            :: trace loop ++ header).
  cbn [app]. f_equal. rewrite <-app_assoc. f_equal. cbn [app]. f_equal.
  by rewrite <-app_assoc.
Qed.

End whole_runs.

(** ** The further properties on the small sites *)

Lemma parse_team_page_parts_witness :
  "Bob Smith" ∈ player_name <$>
    result (parse_team_page Site.session_get Site.BeautifulSoup Site.team100 0%nat) ∧
  ("55", "Jane Doe") ∈ id_and_name <$>
    result (parse_team_page Site.session_get Site.BeautifulSoup Site.team100 0%nat).
Proof.
  destruct (parse_team_page_parts Site.session_get Site.BeautifulSoup Site.team100 0%nat
              Site.roster100_html 1%nat)
    as (linked & added & Heq & _ & _ & Hlinks & Hcells);
    [reflexivity | intros [=] |].
  rewrite Heq. split.
  - apply (Hcells (Site.td [NavigableString "Bob Smith"])); [|vm_compute; reflexivity].
    assert (Hcells' :
      table_cells (Site.BeautifulSoup Site.roster100_html) =
      [ Site.td [Site.a "playermatches.asp?id=55" "Jane Doe"];
        Site.td [NavigableString "Bob Smith"];
        Site.td [Site.a "playermatches.asp?id=55" "Jane Doe"] ])
      by (vm_compute; reflexivity).
    rewrite Hcells'. apply list_elem_of_further, list_elem_of_here.
  - rewrite fmap_app. apply elem_of_app. left.
    apply (Hlinks (Site.a "playermatches.asp?id=55" "Jane Doe")
             "playermatches.asp?id=55" "55");
      [|vm_compute; lia|reflexivity|vm_compute; reflexivity].
    assert (Hlinks' :
      find_all_a_href "playermatches.asp?id=" (Site.BeautifulSoup Site.roster100_html) =
      [ Site.a "playermatches.asp?id=55" "Jane Doe";
        Site.a "playermatches.asp?id=55" "Jane Doe" ])
      by (vm_compute; reflexivity).
    rewrite Hlinks'. apply list_elem_of_here.
Defined.

Lemma parse_team_page_team_witness :
  player_team (mkPlayer "unknown" "Bob Smith" "Team Alpha - Captain")
    = team_name Site.team100.
Proof.
  apply (parse_team_page_team Site.session_get Site.BeautifulSoup Site.team100 0%nat).
  apply (bool_decide_unpack _). vm_compute. exact I.
Defined.

Lemma parse_team_page_no_links_witness :
  from_cell Plain.roster (mkPlayer "unknown" "Tom Kim" "Team Plain - Captain").
Proof.
  apply (parse_team_page_no_links Plain.session_get Plain.BeautifulSoup Plain.team
           0%nat Plain.roster_html 1%nat).
  - reflexivity.
  - vm_compute. reflexivity.
  - apply (bool_decide_unpack _). vm_compute. exact I.
Defined.

Lemma parse_team_page_link_once_witness :
  length (filter (λ p, id_and_name p = ("56", "Tom Kim"))
            (result (parse_team_page Site.session_get Site.BeautifulSoup
                       Site.team300 0%nat))) = 1%nat.
Proof.
  apply (parse_team_page_link_once Site.session_get Site.BeautifulSoup Site.team300
           0%nat Site.roster300_html 1%nat
           (Site.a "playermatches.asp?id=56" "Tom Kim") "playermatches.asp?id=56" "56").
  - reflexivity.
  - intros [=].
  - assert (Hlinks :
      find_all_a_href "playermatches.asp?id=" (Site.BeautifulSoup Site.roster300_html) =
      [Site.a "playermatches.asp?id=55" "Jane Doe";
       Site.a "playermatches.asp?id=56" "Tom Kim"]) by (vm_compute; reflexivity).
    rewrite Hlinks. apply list_elem_of_further, list_elem_of_here.
  - vm_compute. lia.
  - reflexivity.
  - vm_compute. reflexivity.
Defined.

Lemma parse_team_page_unknown_name_once_witness :
  length (filter (λ q, player_name q = "Bob Smith")
            (result (parse_team_page Plain.session_get Plain.BeautifulSoup
                       Plain.team 0%nat))) = 1%nat.
Proof.
  apply (parse_team_page_unknown_name_once Plain.session_get Plain.BeautifulSoup
           Plain.team 0%nat (mkPlayer "unknown" "Bob Smith" "Team Plain - Captain")).
  - apply (bool_decide_unpack _). vm_compute. exact I.
  - reflexivity.
Defined.

Lemma parse_team_page_name_shape_witness :
  (3 ≤ Py.len "Bob Smith")%nat ∧ ("unknown" = "unknown" → ¬ has_letter_a "Bob Smith").
Proof.
  apply (parse_team_page_name_shape Plain.session_get Plain.BeautifulSoup
           Plain.team 0%nat (mkPlayer "unknown" "Bob Smith" "Team Plain - Captain")).
  apply (bool_decide_unpack _). vm_compute. exact I.
Defined.

Lemma parse_player_page_teams_witness :
  (result (parse_player_page Site.session_get Site.BeautifulSoup Site.urljoin
             "7" 0%nat)).1 = [Site.team100; Site.team200; Site.team300].
Proof.
  rewrite (parse_player_page_teams Site.session_get Site.BeautifulSoup Site.urljoin
             "7" 0%nat Site.profile7_html 1%nat); [|reflexivity|intros [=]].
  vm_compute. reflexivity.
Defined.

Lemma parse_player_page_team_refs_witness :
  digit_string "200" ∧ ∃ pre post, "Team Beta - Co-Captain" = pre +:+ "Captain" +:+ post.
Proof.
  apply (parse_player_page_team_refs Site.session_get Site.BeautifulSoup Site.urljoin
           "7" 0%nat Site.team200).
  apply (bool_decide_unpack _). vm_compute. exact I.
Defined.

Lemma parse_player_page_name_shape_witness :
  (3 < Py.len "Smith, John")%nat ∧ Py.forallb Py.name_char "Smith, John" = true ∧
  (2 ≤ length (Py.split "Smith, John"))%nat ∧
  Py.any_in site_words (Py.lower "Smith, John") = false.
Proof.
  apply (parse_player_page_name_shape Site.session_get Site.BeautifulSoup Site.urljoin
           "7" 0%nat).
  vm_compute. reflexivity.
Defined.

Lemma count_players_permutation_witness :
  count_players [mkPlayer "55" "Jane Doe" "A"; mkPlayer "unknown" "Bob Smith" "A";
                 mkPlayer "55" "Jane Doe" "B"]
  = count_players [mkPlayer "55" "Jane Doe" "B"; mkPlayer "55" "Jane Doe" "A";
                   mkPlayer "unknown" "Bob Smith" "A"].
Proof.
  apply count_players_permutation.
  apply (Permutation_app_comm [_; _] [_]).
Defined.

Lemma sorted_players_spec_witness :
  let counts := count_players [mkPlayer "55" "Jane Doe" "A";
                               mkPlayer "unknown" "Bob Smith" "A";
                               mkPlayer "55" "Jane Doe" "B";
                               mkPlayer "56" "Amy Lin" "B"] in
  merge_sort report_order (reverse (map_to_list counts)) =
  [("Jane Doe", 2%nat); ("Amy Lin", 1%nat); ("Bob Smith", 1%nat)].
Proof.
  intros counts.
  destruct (sorted_players_spec counts (reverse (map_to_list counts))) as (_ & _ & ->).
  - apply reverse_Permutation.
  - vm_compute. reflexivity.
Defined.

Lemma analyze_captain_report_lines_witness :
  ∃ before,
    trace (Site.analyze "7") =
      before ++
      [ Print "Jane Doe                                   2 times";
        Print "Bob Smith                                  1 times";
        Print "Tom Kim                                    1 times";
        Print (newline +:+ Py.repeat_char "=" 60) ].
Proof.
  destruct (analyze_captain_report_lines Site.session_get Site.BeautifulSoup
              Site.urljoin "7" 0%nat)
    as [before Hbefore]; [intros H; vm_compute in H; discriminate H|].
  exists before. exact Hbefore.
Defined.
